(** * azure-auto-provisioning: the two scripts and their specification

    [scripts/parse_input.py] turns a provisioning request (a JSON document)
    into a Terraform variable file; [scripts/validate.py] queries Terraform
    after an apply, checks the outputs, probes the machines and prints a
    report.  Both scripts are embedded below as functions over the values
    that [json.loads] produces, in a small monad that records what a run
    prints, which commands it starts and which functions it enters. *)

From Stdlib Require Import String Ascii List ZArith Bool Lia DecimalString.
From Stdlib Require Import Floats.SpecFloat.
Import ListNotations.
Open Scope string_scope.
Set Warnings "-register-all".

(** ** Python values, exceptions and the runtime *)

Module Py.

(** What [json.loads] returns: [None], [bool], [int], [float], [str],
    [list] and [dict].  A dict keeps its insertion order, so it is an
    association list; a lookup takes the first binding of the key.  A str
    is a sequence of characters, and the characters are the 8-bit ones of
    [ascii]: the icons of the printed lines are their UTF-8 bytes. *)
Inductive pyval : Type :=
| PNone
| PBool (b : bool)
| PInt (n : Z)
| PFloat (f : spec_float)
| PStr (s : string)
| PList (l : list pyval)
| PDict (d : list (string * pyval)).

(** The exceptions the scripts can meet.  [SystemExit] is the only one that
    is not an [Exception]. *)
Inductive exn : Type :=
| TypeError
| KeyError
| AttributeError
| JSONDecodeError
| FileNotFoundError
| OSError
| ValueError
| SystemExit (code : Z).

Inductive res (A : Type) : Type :=
| Ret (a : A)
| Raise (e : exn).
Arguments Ret {A} a.
Arguments Raise {A} e.

(** What the scripts take from the interpreter and its library, and do not
    define themselves.  [json_loads text] is [Some v] when [json.loads]
    returns [v] and [None] when it raises [JSONDecodeError]; the two other
    ways [json.loads] can end (a [ValueError] on an integer literal beyond
    the digit limit of the interpreter, a [RecursionError] on a document
    nested too deep) are outside this interface, and the statements below
    that mention [json_loads] speak of texts on which it returns or raises
    [JSONDecodeError]. *)
Class Runtime : Type := {
  str_strip : string -> string;            (* str.strip() *)
  json_loads : string -> option pyval;     (* json.loads; None: JSONDecodeError *)
  repr_str : string -> string;             (* repr of a str *)
  repr_float : spec_float -> string;       (* repr of a float *)
  exn_message : exn -> string              (* str(e) *)
}.

Definition nl : string := String (ascii_of_nat 10) EmptyString.
Definition dq : string := String (ascii_of_nat 34) EmptyString.

Fixpoint join (sep : string) (l : list string) : string :=
  match l with
  | [] => EmptyString
  | [x] => x
  | x :: xs => x ++ sep ++ join sep xs
  end.

Fixpoint repeat_str (s : string) (n : nat) : string :=
  match n with
  | O => EmptyString
  | S k => s ++ repeat_str s k
  end.

Definition int_str (n : Z) : string := NilZero.string_of_int (Z.to_int n).

Fixpoint lookup (k : string) (d : list (string * pyval)) : option pyval :=
  match d with
  | [] => None
  | (k', v) :: rest => if String.eqb k k' then Some v else lookup k rest
  end.

Definition has_key (k : string) (d : list (string * pyval)) : bool :=
  match lookup k d with Some _ => true | None => false end.

Definition is_str (s : string) (v : pyval) : bool :=
  match v with PStr s' => String.eqb s s' | _ => false end.

(** [needle in hay] on two strings: [needle] occurs in [hay]. *)
Fixpoint substring_of (needle hay : string) : bool :=
  String.prefix needle hay ||
  match hay with
  | EmptyString => false
  | String _ rest => substring_of needle rest
  end.

Section WithRuntime.
Context {rt : Runtime}.

Fixpoint py_repr (v : pyval) : string :=
  match v with
  | PNone => "None"
  | PBool true => "True"
  | PBool false => "False"
  | PInt n => int_str n
  | PFloat f => repr_float f
  | PStr s => repr_str s
  | PList l => "[" ++ join ", " (map py_repr l) ++ "]"
  | PDict d =>
      "{" ++ join ", " (map (fun kv : string * pyval =>
                              let (k, x) := kv in
                              repr_str k ++ ": " ++ py_repr x) d) ++ "}"
  end.

(** [str(v)], which is what an f-string field [{v}] renders. *)
Definition py_str (v : pyval) : string :=
  match v with
  | PStr s => s
  | _ => py_repr v
  end.

End WithRuntime.

(** Truth value of a value, as [if v:] and [not v] take it. *)
Definition truthy (v : pyval) : bool :=
  match v with
  | PNone => false
  | PBool b => b
  | PInt n => negb (n =? 0)%Z
  | PFloat (S754_zero _) => false
  | PFloat _ => true
  | PStr EmptyString => false
  | PStr _ => true
  | PList [] => false
  | PList _ => true
  | PDict [] => false
  | PDict _ => true
  end.

(** ['k' in c] with a str on the left. *)
Definition py_in (k : string) (c : pyval) : res bool :=
  match c with
  | PDict d => Ret (has_key k d)
  | PList l => Ret (existsb (is_str k) l)
  | PStr s => Ret (substring_of k s)
  | _ => Raise TypeError
  end.

(** [c['k']] with a str index. *)
Definition getitem (c : pyval) (k : string) : res pyval :=
  match c with
  | PDict d => match lookup k d with Some v => Ret v | None => Raise KeyError end
  | _ => Raise TypeError
  end.

(** [c.get('k', default)]; only a dict has the method. *)
Definition py_get (c : pyval) (k : string) (default : pyval) : res pyval :=
  match c with
  | PDict d => Ret (match lookup k d with Some v => v | None => default end)
  | _ => Raise AttributeError
  end.

(** [c.items()]. *)
Definition py_items (c : pyval) : res (list (string * pyval)) :=
  match c with
  | PDict d => Ret d
  | _ => Raise AttributeError
  end.

Fixpoint chars (s : string) : list pyval :=
  match s with
  | EmptyString => []
  | String c rest => PStr (String c EmptyString) :: chars rest
  end.

(** The elements a [for] loop (or [enumerate]) walks through. *)
Definition py_iter (c : pyval) : res (list pyval) :=
  match c with
  | PList l => Ret l
  | PStr s => Ret (chars s)
  | PDict d => Ret (map (fun kv => PStr (fst kv)) d)
  | _ => Raise TypeError
  end.

(** [len(c)]. *)
Definition py_len (c : pyval) : res Z :=
  match c with
  | PList l => Ret (Z.of_nat (List.length l))
  | PStr s => Ret (Z.of_nat (String.length s))
  | PDict d => Ret (Z.of_nat (List.length d))
  | _ => Raise TypeError
  end.

(** [isinstance(v, int)]: [bool] is a subclass of [int]. *)
Definition isinstance_int (v : pyval) : bool :=
  match v with
  | PInt _ | PBool _ => true
  | _ => false
  end.

(** The number an [int] instance stands for in a comparison. *)
Definition int_value (v : pyval) : Z :=
  match v with
  | PInt n => n
  | PBool true => 1
  | _ => 0
  end.

(** [enumerate(l, 1)]. *)
Definition enumerate1 {A : Type} (l : list A) : list (nat * A) :=
  combine (seq 1 (List.length l)) l.

(** *** Runs

    A run leaves a trace: the lines it prints, the commands it starts, the
    file it writes and the functions of the script it enters. *)
Inductive event : Type :=
| Call (fn : string)
| Out (line : string)
| Exec (cmd : string)
| Write (path content : string).

Definition M (A : Type) : Type := (res A * list event)%type.

Definition ret {A : Type} (a : A) : M A := (Ret a, []).
Definition raise {A : Type} (e : exn) : M A := (Raise e, []).
Definition lift {A : Type} (r : res A) : M A := (r, []).
Definition emit (e : event) : M unit := (Ret tt, [e]).
Definition print (line : string) : M unit := emit (Out line).

Definition bind {A B : Type} (m : M A) (f : A -> M B) : M B :=
  match m with
  | (Ret a, t) => let (r, t') := f a in (r, (t ++ t')%list)
  | (Raise e, t) => (Raise e, t)
  end.

(** [try: m  except ...: h e] for the exceptions [handles] selects. *)
Definition catch {A : Type} (m : M A) (handles : exn -> bool) (h : exn -> M A) : M A :=
  match m with
  | (Raise e, t) => if handles e then let (r, t') := h e in (r, (t ++ t')%list) else (Raise e, t)
  | done => done
  end.

Fixpoint for_each {A : Type} (l : list A) (body : A -> M unit) : M unit :=
  match l with
  | [] => ret tt
  | x :: xs => bind (body x) (fun _ => for_each xs body)
  end.

Definition result {A : Type} (m : M A) : res A := fst m.
Definition trace {A : Type} (m : M A) : list event := snd m.

(** The exit status of a process whose top level is [sys.exit(m)]: an
    uncaught exception other than [SystemExit] ends the interpreter with
    status 1. *)
Definition exit_code (m : M Z) : Z :=
  match result m with
  | Ret c => c
  | Raise (SystemExit c) => c
  | Raise _ => 1%Z
  end.

End Py.

Export Py.

Declare Scope py_scope.
Delimit Scope py_scope with py.
Notation "x <- m ;; k" := (bind m (fun x => k))
  (at level 61, m at next level, right associativity) : py_scope.
Notation "m ;; k" := (bind m (fun _ => k))
  (at level 61, right associativity) : py_scope.
Open Scope py_scope.

(** ** The outside world

    Every answer the scripts get from outside: what a command started by
    [run_command] returns, how each [ping] ends (the i-th probe of a run
    may answer differently from the others, so it is asked for by
    position: [Some rc] when the process ran and exited with [rc], [None]
    when the operating system could not start it, as for a command line
    that is too long), and the two files of [parse_input.py].
    [write_text path content] is how the block that opens [path] for
    writing and writes [content] ends: [None] when it completes, [Some e]
    when [open] or [f.write] raises [e]. *)

Record proc : Type := {
  returncode : Z;
  stdout : string;
  stderr : string
}.

Record world : Type := {
  shell : string -> proc;
  probe : nat -> string -> option Z;
  read_text : string -> res string;
  write_text : string -> string -> option exn
}.

(** ** scripts/parse_input.py *)

Module ParseInput.
Section Script.
Context {rt : Runtime}.

Definition required_fields : list string :=
  ["environment"; "vm_count"; "vm_size"; "location"; "project_name"].

Definition valid_envs : list string := ["dev"; "staging"; "production"].

(** The loop over [required_fields]; [false] when it returned [False] from
    inside, [true] when it ran to its end. *)
Fixpoint required_loop (fields : list string) (data : pyval) : M bool :=
  match fields with
  | [] => ret true
  | field :: rest =>
      present <- lift (py_in field data);;
      if negb present then
        print ("❌ Error: Missing required field '" ++ field ++ "'");;
        ret false
      else required_loop rest data
  end.

(** [not isinstance(data['vm_count'], int) or data['vm_count'] < 1] *)
Definition vm_count_rejected (data : pyval) : M bool :=
  vc <- lift (getitem data "vm_count");;
  if negb (isinstance_int vc) then ret true
  else
    vc' <- lift (getitem data "vm_count");;
    ret (int_value vc' <? 1)%Z.

Definition validate_input (data : pyval) : M bool :=
  complete <- required_loop required_fields data;;
  if negb complete then ret false
  else
    rejected <- vm_count_rejected data;;
    if rejected then
      print "❌ Error: vm_count must be a positive integer";;
      ret false
    else
      env <- lift (getitem data "environment");;
      if negb (existsb (fun e => is_str e env) valid_envs) then
        print ("❌ Error: environment must be one of "
               ++ py_str (PList (map PStr valid_envs)));;
        ret false
      else
        print "✅ Input validation passed";;
        ret true.

(** The f-string that starts [tfvars_content]. *)
Definition tfvars_head (input_file : string) (data : pyval) : M string :=
  environment <- lift (getitem data "environment");;
  project_name <- lift (getitem data "project_name");;
  location <- lift (getitem data "location");;
  vm_count <- lift (getitem data "vm_count");;
  vm_size <- lift (getitem data "vm_size");;
  admin_username <- lift (py_get data "admin_username" (PStr "azureuser"));;
  os_type <- lift (py_get data "os_type" (PStr "linux"));;
  ret ("# Auto-generated Terraform variables" ++ nl
       ++ "# Generated from: " ++ input_file ++ nl
       ++ nl
       ++ "environment      = " ++ dq ++ py_str environment ++ dq ++ nl
       ++ "project_name     = " ++ dq ++ py_str project_name ++ dq ++ nl
       ++ "location         = " ++ dq ++ py_str location ++ dq ++ nl
       ++ "vm_count         = " ++ py_str vm_count ++ nl
       ++ "vm_size          = " ++ dq ++ py_str vm_size ++ dq ++ nl
       ++ "admin_username   = " ++ dq ++ py_str admin_username ++ dq ++ nl
       ++ "os_type          = " ++ dq ++ py_str os_type ++ dq ++ nl).

(** One turn of the loop over [data['tags'].items()]. *)
Definition add_tag (content : string) (kv : string * pyval) : string :=
  content ++ "  " ++ fst kv ++ " = " ++ dq ++ py_str (snd kv) ++ dq ++ nl.

(** [if 'tags' in data and data['tags']: ...] *)
Definition add_tags (data : pyval) (content : string) : M string :=
  present <- lift (py_in "tags" data);;
  nonempty <- (if present then
                 tags <- lift (getitem data "tags");;
                 ret (truthy tags)
               else ret false);;
  if nonempty then
    tags <- lift (getitem data "tags");;
    items <- lift (py_items tags);;
    ret (fold_left add_tag items (content ++ nl ++ "tags = {" ++ nl) ++ "}" ++ nl)
  else ret content.

Definition read_json (w : world) (path : string) : M pyval :=
  text <- lift (read_text w path);;
  match json_loads text with
  | Some data => ret data
  | None => raise JSONDecodeError
  end.

(** [with open(path, 'w') as f: f.write(content)].  A [Write] event stands
    for a write that completed.  When the block raises, the run records no
    event: [open] may have created or emptied the file before [f.write]
    raised, so the absence of a [Write] event says that no write completed,
    not that the file is as it was. *)
Definition write_file (w : world) (path content : string) : M unit :=
  match write_text w path content with
  | None => emit (Write path content)
  | Some e => raise e
  end.

Definition is_Exception (e : exn) : bool :=
  match e with
  | SystemExit _ => false
  | _ => true
  end.

Definition parse_input (w : world) (input_file output_file : string) : M bool :=
  catch
    (data <- read_json w input_file;;
     print ("📄 Reading input from: " ++ input_file);;
     valid <- validate_input data;;
     (if negb valid then raise (SystemExit 1) else ret tt);;
     head <- tfvars_head input_file data;;
     tfvars_content <- add_tags data head;;
     write_file w output_file tfvars_content;;
     print ("✅ Generated Terraform variables: " ++ output_file);;
     print (nl ++ "📋 Configuration Summary:");;
     environment <- lift (getitem data "environment");;
     print ("   Environment: " ++ py_str environment);;
     project_name <- lift (getitem data "project_name");;
     print ("   Project: " ++ py_str project_name);;
     location <- lift (getitem data "location");;
     print ("   Location: " ++ py_str location);;
     vm_count <- lift (getitem data "vm_count");;
     print ("   VM Count: " ++ py_str vm_count);;
     vm_size <- lift (getitem data "vm_size");;
     print ("   VM Size: " ++ py_str vm_size);;
     ret true)
    is_Exception
    (fun e =>
       match e with
       | FileNotFoundError =>
           print ("❌ Error: Input file '" ++ input_file ++ "' not found");;
           ret false
       | JSONDecodeError =>
           print ("❌ Error: Invalid JSON in input file: " ++ exn_message e);;
           ret false
       | _ =>
           print ("❌ Error: " ++ exn_message e);;
           ret false
       end).

Definition input_file : string := "inputs/server_request.json".
Definition output_file : string := "terraform/terraform.tfvars".

(** The [if __name__ == "__main__":] block. *)
Definition script (w : world) : M Z :=
  ok <- parse_input w input_file output_file;;
  if ok then
    print (nl ++ "🎉 Input parsing completed successfully!");;
    raise (SystemExit 0)
  else raise (SystemExit 1).

(** The content of the write a run completed, if it completed one. *)
Fixpoint written (t : list event) : option string :=
  match t with
  | [] => None
  | Write _ content :: _ => Some content
  | _ :: rest => written rest
  end.

End Script.
End ParseInput.

(** ** scripts/validate.py *)

Module Validate.
Section Script.
Context {rt : Runtime}.

Definition show_cmd : string := "cd terraform && terraform show -json".
Definition output_cmd : string := "cd terraform && terraform output -json".

(** [run_command]: [None] is Python's [None]. *)
Definition run_command (w : world) (command : string) : M (option string) :=
  emit (Exec command);;
  let p := shell w command in
  if (returncode p =? 0)%Z then ret (Some (str_strip (stdout p)))
  else
    print ("❌ Command failed: " ++ command);;
    print ("Error: " ++ stderr p);;
    ret None.

(** [not result] for what [run_command] returned. *)
Definition no_result (r : option string) : bool :=
  match r with
  | None => true
  | Some s => negb (truthy (PStr s))
  end.

Definition check_terraform_state (w : world) : M bool :=
  emit (Call "check_terraform_state");;
  print (nl ++ "🔍 Checking Terraform state...");;
  result <- run_command w show_cmd;;
  match result with
  | None => ret false
  | Some text =>
      if no_result result then ret false
      else
        match json_loads text with
        | None =>
            print "❌ Invalid Terraform state";;
            ret false
        | Some state =>
            has_values <- lift (py_in "values" state);;
            ok <- (if has_values then
                     values <- lift (getitem state "values");;
                     lift (py_in "root_module" values)
                   else ret false);;
            if ok then
              print "✅ Terraform state is valid";;
              ret true
            else
              print "❌ Invalid Terraform state";;
              ret false
        end
  end.

(** Returns [PNone] for Python's [None]. *)
Definition get_terraform_outputs (w : world) : M pyval :=
  emit (Call "get_terraform_outputs");;
  print (nl ++ "📊 Retrieving Terraform outputs...");;
  result <- run_command w output_cmd;;
  match result with
  | None => ret PNone
  | Some text =>
      if no_result result then ret PNone
      else
        match json_loads text with
        | Some outputs => ret outputs
        | None =>
            print "❌ Failed to parse Terraform outputs";;
            ret PNone
        end
  end.

(** [outputs[key]['value']] *)
Definition output_value (outputs : pyval) (key : string) : M pyval :=
  entry <- lift (getitem outputs key);;
  lift (getitem entry "value").

Definition print_items (l : list pyval) : M unit :=
  for_each l (fun x => print ("    - " ++ py_str x)).

Definition validate_resources (outputs : pyval) : M bool :=
  emit (Call "validate_resources");;
  print (nl ++ "✓ Validating provisioned resources...");;
  let validation_passed := true in
  (* Check resource group *)
  has_rg <- lift (py_in "resource_group_name" outputs);;
  validation_passed <-
    (if has_rg then
       rg_name <- output_value outputs "resource_group_name";;
       print ("  ✓ Resource Group: " ++ py_str rg_name);;
       ret validation_passed
     else
       print "  ✗ Resource Group not found";;
       ret false);;
  (* Check VMs *)
  has_vms <- lift (py_in "vm_names" outputs);;
  validation_passed <-
    (if has_vms then
       vm_names <- output_value outputs "vm_names";;
       n <- lift (py_len vm_names);;
       print ("  ✓ Virtual Machines: " ++ int_str n ++ " created");;
       vms <- lift (py_iter vm_names);;
       print_items vms;;
       ret validation_passed
     else
       print "  ✗ Virtual Machines not found";;
       ret false);;
  (* Check Public IPs *)
  has_public <- lift (py_in "vm_public_ips" outputs);;
  validation_passed <-
    (if has_public then
       public_ips <- output_value outputs "vm_public_ips";;
       n <- lift (py_len public_ips);;
       print ("  ✓ Public IPs: " ++ int_str n ++ " assigned");;
       ips <- lift (py_iter public_ips);;
       print_items ips;;
       ret validation_passed
     else
       print "  ✗ Public IPs not found";;
       ret false);;
  (* Check Private IPs *)
  has_private <- lift (py_in "vm_private_ips" outputs);;
  validation_passed <-
    (if has_private then
       private_ips <- output_value outputs "vm_private_ips";;
       n <- lift (py_len private_ips);;
       print ("  ✓ Private IPs: " ++ int_str n ++ " assigned");;
       ret validation_passed
     else
       print "  ✗ Private IPs not found";;
       ret false);;
  ret validation_passed.

Definition ping_cmd (ip : pyval) : string := "ping -c 1 -W 2 " ++ py_str ip.

(** The command holds a NUL character. *)
Fixpoint has_nul (s : string) : bool :=
  match s with
  | EmptyString => false
  | String c rest => Ascii.eqb c Ascii.zero || has_nul rest
  end.

(** [subprocess.run(cmd, shell=True, capture_output=True)] for the i-th
    probe.  A command with an embedded NUL character is refused with
    [ValueError] before any process is started, and a process that the
    operating system cannot start gives [OSError]; otherwise the command
    runs and its return code comes back, zero or not (no [check=True]
    here). *)
Definition subprocess_run (w : world) (i : nat) (cmd : string) : M Z :=
  if has_nul cmd then raise ValueError
  else match probe w i cmd with
       | Some rc => emit (Exec cmd);; ret rc
       | None => raise OSError
       end.

(** One turn of the loop of [ping_vms]. *)
Definition ping_one (w : world) (iv : nat * pyval) : M unit :=
  let (i, ip) := iv in
  print ("  Testing VM " ++ int_str (Z.of_nat i) ++ " (" ++ py_str ip ++ ")...");;
  rc <- subprocess_run w i (ping_cmd ip);;
  if (rc =? 0)%Z then
    print ("    ✓ VM " ++ int_str (Z.of_nat i) ++ " is reachable")
  else
    print ("    ⚠️  VM " ++ int_str (Z.of_nat i)
           ++ " is not responding to ping (may be firewall)").

Definition ping_vms (w : world) (outputs : pyval) : M bool :=
  emit (Call "ping_vms");;
  print (nl ++ "🌐 Testing VM connectivity...");;
  has_public <- lift (py_in "vm_public_ips" outputs);;
  if negb has_public then
    print "⚠️  Skipping connectivity test - no public IPs found";;
    ret true
  else
    public_ips <- output_value outputs "vm_public_ips";;
    ips <- lift (py_iter public_ips);;
    for_each (enumerate1 ips) (ping_one w);;
    ret true.

Definition rule : string := repeat_str "=" 60.

Definition print_command (ic : nat * pyval) : M unit :=
  let (i, cmd) := ic in
  print ("  VM " ++ int_str (Z.of_nat i) ++ ": " ++ py_str cmd).

(** [print(f"<label>{summary.get(key, 'N/A')}")] *)
Definition print_field (label : string) (summary : pyval) (key : string) : M unit :=
  v <- lift (py_get summary key (PStr "N/A"));;
  print (label ++ py_str v).

Definition generate_report (outputs : pyval) : M unit :=
  emit (Call "generate_report");;
  print (nl ++ rule);;
  print "📋 PROVISIONING VALIDATION REPORT";;
  print rule;;
  if negb (truthy outputs) then print "❌ No outputs available"
  else
    entry <- lift (py_get outputs "provisioning_summary" (PDict []));;
    summary <- lift (py_get entry "value" (PDict []));;
    print_field (nl ++ "🎯 Environment: ") summary "environment";;
    print_field "📦 Project: " summary "project_name";;
    print_field "🌍 Location: " summary "location";;
    print_field "🖥️  VM Count: " summary "vm_count";;
    print_field "💻 VM Size: " summary "vm_size";;
    print_field "🐧 OS Type: " summary "os_type";;
    print_field "⏰ Created: " summary "creation_time";;
    (* Connection info *)
    has_commands <- lift (py_in "connection_commands" outputs);;
    (if has_commands then
       commands <- output_value outputs "connection_commands";;
       print (nl ++ "🔐 Connection Commands:");;
       cmds <- lift (py_iter commands);;
       for_each (enumerate1 cmds) print_command
     else ret tt);;
    print (nl ++ rule);;
    print "✅ VALIDATION COMPLETED";;
    print (rule ++ nl).

Definition main (w : world) : M Z :=
  print "🚀 Starting infrastructure validation...";;
  (* Step 1: Check Terraform state *)
  state_ok <- check_terraform_state w;;
  (if negb state_ok then
     print (nl ++ "❌ Validation failed: Invalid Terraform state");;
     raise (SystemExit 1)
   else ret tt);;
  (* Step 2: Get outputs *)
  outputs <- get_terraform_outputs w;;
  (if negb (truthy outputs) then
     print (nl ++ "❌ Validation failed: Could not retrieve outputs");;
     raise (SystemExit 1)
   else ret tt);;
  (* Step 3: Validate resources *)
  resources_ok <- validate_resources outputs;;
  (if negb resources_ok then
     print (nl ++ "❌ Validation failed: Missing resources");;
     raise (SystemExit 1)
   else ret tt);;
  (* Step 4: Test connectivity (non-blocking) *)
  ping_vms w outputs;;
  (* Step 5: Generate report *)
  generate_report outputs;;
  print "🎉 All validation checks passed!";;
  ret 0%Z.

(** [sys.exit(main())] *)
Definition script (w : world) : Z := exit_code (main w).

(** A function of the script was entered during the run. *)
Definition invoked (fn : string) (t : list event) : Prop := In (Call fn) t.

(** A command was started during the run. *)
Definition started (cmd : string) (t : list event) : Prop := In (Exec cmd) t.

End Script.
End Validate.

(** ** What the specification talks about *)

Import Validate ParseInput.

(** The lines of a text. *)
Fixpoint lines (s : string) : list string :=
  match s with
  | EmptyString => [EmptyString]
  | String c rest =>
      if Ascii.eqb c (ascii_of_nat 10) then EmptyString :: lines rest
      else match lines rest with
           | [] => [String c EmptyString]
           | l :: ls => String c l :: ls
           end
  end.

Fixpoint newline_free (s : string) : bool :=
  match s with
  | EmptyString => true
  | String c rest => negb (Ascii.eqb c (ascii_of_nat 10)) && newline_free rest
  end.

(** The two verdict lines of [validate_input] the claims name. *)
Definition missing_message (field : string) : event :=
  Out ("❌ Error: Missing required field '" ++ field ++ "'").

Definition passed_message : event := Out "✅ Input validation passed".

(** The values the [vm_count] test lets through. *)
Definition accepted_count (vc : pyval) : bool :=
  match vc with
  | PInt n => (1 <=? n)%Z
  | PBool b => b
  | _ => false
  end.

Definition is_dict (v : pyval) : bool :=
  match v with
  | PDict _ => true
  | _ => false
  end.

(** [tags], when present and not empty, is a mapping. *)
Definition tags_fine (d : list (string * pyval)) : bool :=
  match lookup "tags" d with
  | Some t => negb (truthy t) || is_dict t
  | None => true
  end.

(** The four output keys [validate_resources] looks for, with the line it
    prints when one is absent. *)
Definition required_outputs : list (string * string) :=
  [("resource_group_name", "  ✗ Resource Group not found");
   ("vm_names", "  ✗ Virtual Machines not found");
   ("vm_public_ips", "  ✗ Public IPs not found");
   ("vm_private_ips", "  ✗ Private IPs not found")].

Definition all_present (d : list (string * pyval)) : bool :=
  forallb (fun kl => has_key (fst kl) d) required_outputs.

(** The diagnostics due for the keys that [d] lacks, in the order of the
    checks. *)
Definition missing_lines (d : list (string * pyval)) : list event :=
  map (fun kl => Out (snd kl))
      (filter (fun kl => negb (has_key (fst kl) d)) required_outputs).

(** The diagnostics of a run: the printed lines that start with the cross. *)
Definition is_diagnostic (e : event) : bool :=
  match e with
  | Out line => String.prefix "  ✗ " line
  | _ => false
  end.

Definition diagnostics (t : list event) : list event := filter is_diagnostic t.

(** Values [len] and [for] accept. *)
Definition sized (v : pyval) : bool :=
  match v with
  | PList _ | PStr _ | PDict _ => true
  | _ => false
  end.

(** An output, when present, is an object with a [value] member, and the
    value has a length when the check asks for one. *)
Definition entry_ok (key : string) (want_len : bool) (d : list (string * pyval)) : bool :=
  match lookup key d with
  | None => true
  | Some (PDict e) =>
      match lookup "value" e with
      | Some v => if want_len then sized v else true
      | None => false
      end
  | Some _ => false
  end.

(** The shape the outputs of the data model have, as far as
    [validate_resources] relies on it. *)
Definition outputs_shaped (d : list (string * pyval)) : bool :=
  entry_ok "resource_group_name" false d
  && entry_ok "vm_names" true d
  && entry_ok "vm_public_ips" true d
  && entry_ok "vm_private_ips" true d.

(** The shape [generate_report] relies on: the summary, when present, is an
    object whose [value], when present, is an object; the connection
    commands, when present, are an object with a [value] that can be walked
    through. *)
Definition report_shaped (d : list (string * pyval)) : bool :=
  match lookup "provisioning_summary" d with
  | None => true
  | Some (PDict e) =>
      match lookup "value" e with
      | None | Some (PDict _) => true
      | Some _ => false
      end
  | Some _ => false
  end
  && entry_ok "connection_commands" true d.

(** What the state check requires of a parsed state: a [values] member that
    holds [root_module].  Under an object this is the presence of the key. *)
Definition holds_root_module (values : pyval) : bool :=
  match py_in "root_module" values with
  | Ret b => b
  | Raise _ => false
  end.

Definition required_structure (state : pyval) : bool :=
  match state with
  | PDict d =>
      match lookup "values" d with
      | Some values => holds_root_module values
      | None => false
      end
  | _ => false
  end.

(** A state document that is an object whose [values], when present, is an
    object. *)
Definition object_state (state : pyval) : bool :=
  match state with
  | PDict d =>
      match lookup "values" d with
      | None | Some (PDict _) => true
      | Some _ => false
      end
  | _ => false
  end.

(** The key [root_module] is present under [values]. *)
Definition root_module_present (state : pyval) : bool :=
  match state with
  | PDict d =>
      match lookup "values" d with
      | Some (PDict vs) => has_key "root_module" vs
      | _ => false
      end
  | _ => false
  end.

(** The validity of the data model, in the specification's words: a
    root-module structure under [values] that is not empty. *)
Definition nonempty_root_module (state : pyval) : bool :=
  match state with
  | PDict d =>
      match lookup "values" d with
      | Some (PDict vs) =>
          match lookup "root_module" vs with
          | Some rm => truthy rm
          | None => false
          end
      | _ => false
      end
  | _ => false
  end.

Section Conditions.
Context {rt : Runtime}.

(** The text [run_command] hands back for a command that succeeded. *)
Definition answer (w : world) (cmd : string) : string :=
  str_strip (stdout (shell w cmd)).

(** The state fetch fails: the command exits non-zero, or its output is
    empty or does not parse, or the parsed state lacks the structure. *)
Definition state_fetch_fails (w : world) : Prop :=
  returncode (shell w show_cmd) <> 0%Z
  \/ answer w show_cmd = EmptyString
  \/ json_loads (answer w show_cmd) = None
  \/ exists state, json_loads (answer w show_cmd) = Some state
                   /\ required_structure state = false.

(** The outputs fetch returns [outputs]: the command exits with zero and its
    output is not empty and parses to [outputs]. *)
Definition outputs_fetched (w : world) (outputs : pyval) : Prop :=
  returncode (shell w output_cmd) = 0%Z
  /\ answer w output_cmd <> EmptyString
  /\ json_loads (answer w output_cmd) = Some outputs.

(** The outputs fetch is unavailable: failed invocation, or empty or
    unparsable output. *)
Definition outputs_unavailable (w : world) : Prop :=
  returncode (shell w output_cmd) <> 0%Z
  \/ answer w output_cmd = EmptyString
  \/ json_loads (answer w output_cmd) = None.

(** The addresses [ping_vms] walks through: the elements of the [value] of
    vm_public_ips, when the outputs are a mapping that has them. *)
Definition public_ips (outputs : pyval) : list pyval :=
  match outputs with
  | PDict d =>
      match lookup "vm_public_ips" d with
      | Some (PDict e) =>
          match lookup "value" e with
          | Some v => match py_iter v with
                      | Ret ips => ips
                      | Raise _ => []
                      end
          | None => []
          end
      | _ => []
      end
  | _ => []
  end.

(** The ping of the i-th address can be started: its command line holds no
    NUL character and the operating system starts the process. *)
Definition starts (w : world) (iv : nat * pyval) : bool :=
  negb (has_nul (ping_cmd (snd iv)))
  && match probe w (fst iv) (ping_cmd (snd iv)) with
     | Some _ => true
     | None => false
     end.

(** Every ping of the run can be started. *)
Definition pings_start (w : world) (outputs : pyval) : bool :=
  forallb (starts w) (enumerate1 (public_ips outputs)).

(** The tags block of a variable file: one line per entry, in the order of
    the mapping, the value between quotes. *)
Definition tag_line (kv : string * pyval) : string :=
  "  " ++ fst kv ++ " = " ++ dq ++ py_str (snd kv) ++ dq ++ nl.

Definition tags_block (tags : list (string * pyval)) : string :=
  nl ++ "tags = {" ++ nl ++ String.concat EmptyString (map tag_line tags) ++ "}" ++ nl.

(** What follows the assignments in the variable file of request [d]. *)
Definition tags_text (d : list (string * pyval)) : string :=
  match lookup "tags" d with
  | Some (PDict (kv :: tags)) => tags_block (kv :: tags)
  | _ => EmptyString
  end.

End Conditions.

(** ** Sample documents and a sample runtime

    Concrete requests, states and outputs on which the scripts are run
    below, and a runtime that knows how to read exactly these documents:
    its [json_loads] inverts [dumps] on [sample_docs]. *)

Fixpoint dumps (v : pyval) : string :=
  match v with
  | PNone => "null"
  | PBool true => "true"
  | PBool false => "false"
  | PInt n => int_str n
  | PFloat _ => "0.0"
  | PStr s => dq ++ s ++ dq
  | PList l => "[" ++ join ", " (map dumps l) ++ "]"
  | PDict d =>
      "{" ++ join ", " (map (fun kv : string * pyval =>
                              let (k, x) := kv in
                              dq ++ k ++ dq ++ ": " ++ dumps x) d) ++ "}"
  end.

Definition example_fields : list (string * pyval) :=
  [("environment", PStr "dev"); ("vm_count", PInt 2);
   ("vm_size", PStr "Standard_B2s"); ("location", PStr "eastus");
   ("project_name", PStr "demo")].

Definition example_request : pyval := PDict example_fields.

Definition example_tags : list (string * pyval) :=
  [("team", PStr "infra"); ("tier", PStr "prod")].

Definition tagged_fields : list (string * pyval) :=
  [("environment", PStr "dev"); ("vm_count", PInt 2);
   ("vm_size", PStr "Standard_B2s"); ("location", PStr "eastus");
   ("project_name", PStr "demo"); ("tags", PDict example_tags)].

Definition tagged_request : pyval := PDict tagged_fields.

Definition true_count_fields : list (string * pyval) :=
  [("environment", PStr "dev"); ("vm_count", PBool true);
   ("vm_size", PStr "Standard_B2s"); ("location", PStr "eastus");
   ("project_name", PStr "demo")].

Definition true_count_request : pyval := PDict true_count_fields.

Definition no_size_fields : list (string * pyval) :=
  [("environment", PStr "dev"); ("vm_count", PInt 2);
   ("project_name", PStr "demo")].

Definition no_size_request : pyval := PDict no_size_fields.

Definition good_state : pyval :=
  PDict [("format_version", PStr "1.0");
         ("values", PDict [("root_module", PDict [("resources", PList [])])])].

Definition empty_root_state : pyval :=
  PDict [("values", PDict [("root_module", PDict [])])].

Definition bare_state : pyval := PDict [("format_version", PStr "1.0")].

Definition output (v : pyval) : pyval := PDict [("value", v)].

Definition good_fields : list (string * pyval) :=
  [("resource_group_name", output (PStr "rg-demo-dev"));
   ("vm_names", output (PList [PStr "vm1"; PStr "vm2"]));
   ("vm_public_ips", output (PList [PStr "20.1.2.3"; PStr "20.1.2.4"]));
   ("vm_private_ips", output (PList [PStr "10.0.1.4"; PStr "10.0.1.5"]))].

Definition good_outputs : pyval := PDict good_fields.

Definition two_key_fields : list (string * pyval) :=
  [("resource_group_name", output (PStr "rg-demo-dev"));
   ("vm_names", output (PList [PStr "vm1"; PStr "vm2"]))].

Definition two_key_outputs : pyval := PDict two_key_fields.

Definition empty_outputs : pyval := PDict [].

Definition count_fields : list (string * pyval) :=
  [("resource_group_name", output (PStr "rg-demo-dev"));
   ("vm_names", output (PInt 5));
   ("vm_public_ips", output (PList []));
   ("vm_private_ips", output (PList []))].

Definition count_outputs : pyval := PDict count_fields.


(** The outputs of the data model, with a summary that is a text. *)
Definition text_summary_fields : list (string * pyval) :=
  (good_fields ++ [("provisioning_summary", PStr "deployed")])%list.

Definition text_summary_outputs : pyval := PDict text_summary_fields.

(** Outputs whose second address ends in a NUL character. *)
Definition nul_address : string := "20.1.2.4" ++ String Ascii.zero EmptyString.

Definition nul_fields : list (string * pyval) :=
  [("resource_group_name", output (PStr "rg-demo-dev"));
   ("vm_names", output (PList [PStr "vm1"; PStr "vm2"]));
   ("vm_public_ips", output (PList [PStr "20.1.2.3"; PStr nul_address]));
   ("vm_private_ips", output (PList [PStr "10.0.1.4"; PStr "10.0.1.5"]))].

Definition sample_docs : list pyval :=
  [example_request; tagged_request; true_count_request; no_size_request;
   good_state; empty_root_state; bare_state;
   good_outputs; two_key_outputs; empty_outputs; count_outputs;
   text_summary_outputs].

Definition is_space (c : ascii) : bool :=
  let n := nat_of_ascii c in
  ((9 <=? n) && (n <=? 13) || (28 <=? n) && (n <=? 32))%nat.

Fixpoint lstrip (s : string) : string :=
  match s with
  | String c rest => if is_space c then lstrip rest else s
  | EmptyString => EmptyString
  end.

Fixpoint rev_string (s acc : string) : string :=
  match s with
  | EmptyString => acc
  | String c rest => rev_string rest (String c acc)
  end.

Definition sample_strip (s : string) : string :=
  rev_string (lstrip (rev_string (lstrip s) EmptyString)) EmptyString.

Definition sample_runtime : Runtime := {|
  str_strip := sample_strip;
  json_loads := fun text => find (fun v => String.eqb (dumps v) text) sample_docs;
  repr_str := fun s => "'" ++ s ++ "'";
  repr_float := fun _ => "0.0";
  exn_message := fun e =>
    match e with
    | TypeError => "TypeError"
    | KeyError => "KeyError"
    | AttributeError => "AttributeError"
    | JSONDecodeError => "Expecting value: line 1 column 1 (char 0)"
    | FileNotFoundError => "No such file or directory"
    | OSError => "OSError"
    | ValueError => "embedded null byte"
    | SystemExit _ => EmptyString
    end
|}.

(** A world in which Terraform prints [state] and [outputs] (followed by a
    newline), the i-th probe returns [pings i], the request file holds
    [request] and the variable file can be written. *)
Definition sample_world (state outputs request : pyval) (pings : nat -> Z) : world := {|
  shell := fun cmd =>
    if String.eqb cmd show_cmd then
      {| returncode := 0; stdout := dumps state ++ nl; stderr := EmptyString |}
    else if String.eqb cmd output_cmd then
      {| returncode := 0; stdout := dumps outputs ++ nl; stderr := EmptyString |}
    else {| returncode := 127; stdout := EmptyString; stderr := "not found" |};
  probe := fun i _ => Some (pings i);
  read_text := fun _ => Ret (dumps request);
  write_text := fun _ _ => None
|}.

(** A world in which [terraform show] fails. *)
Definition broken_world : world := {|
  shell := fun _ =>
    {| returncode := 1; stdout := EmptyString; stderr := "No state file was found!" |};
  probe := fun _ _ => Some 1%Z;
  read_text := fun _ => Raise FileNotFoundError;
  write_text := fun _ _ => None
|}.

Definition all_down : nat -> Z := fun _ => 1%Z.
Definition second_down : nat -> Z := fun i => if (i =? 2)%nat then 1%Z else 0%Z.

(** The events a run of [check_terraform_state] can leave. *)
Definition state_event (e : event) : bool :=
  match e with
  | Call fn => String.eqb fn "check_terraform_state"
  | Exec cmd => String.eqb cmd show_cmd
  | Out _ => true
  | Write _ _ => false
  end.

(** The events a run of [get_terraform_outputs] can leave. *)
Definition outputs_event (e : event) : bool :=
  match e with
  | Call fn => String.eqb fn "get_terraform_outputs"
  | Exec cmd => String.eqb cmd output_cmd
  | Out _ => true
  | Write _ _ => false
  end.

(** The lines of [validate.py] the claims name. *)
Definition skip_line : event :=
  Out "⚠️  Skipping connectivity test - no public IPs found".

Definition invalid_state_line : event := Out "❌ Invalid Terraform state".

Definition state_failure_line : event :=
  Out (nl ++ "❌ Validation failed: Invalid Terraform state").

Definition outputs_failure_line : event :=
  Out (nl ++ "❌ Validation failed: Could not retrieve outputs").

Definition start_line : event := Out "🚀 Starting infrastructure validation...".

(** The validity claim of the data model at one state document: the check
    says valid exactly when the root module is there and not empty. *)
Definition validity_as_stated {rt : Runtime} (w : world) (state : pyval) : Prop :=
  result (check_terraform_state w) = Ret true <-> nonempty_root_module state = true.

(** The outputs claim as worded, at one run: whatever document the fetch
    returns and parses, the run goes on to [validate_resources]. *)
Definition proceeds_as_stated {rt : Runtime} (w : world) (outputs : pyval) : Prop :=
  result (check_terraform_state w) = Ret true ->
  outputs_fetched w outputs ->
  invoked "validate_resources" (trace (main w)).

(** The presence-only claim as worded, at one mapping: with the four keys
    present the validator returns [True], whatever they hold. *)
Definition presence_only_as_stated {rt : Runtime} (d : list (string * pyval)) : Prop :=
  all_present d = true -> result (validate_resources (PDict d)) = Ret true.



(** The sample worlds of the runs below. *)
Definition good_world : world :=
  sample_world good_state good_outputs example_request second_down.

Definition empty_outputs_world : world :=
  sample_world good_state empty_outputs example_request all_down.

Definition empty_root_world : world :=
  sample_world empty_root_state good_outputs example_request all_down.

Definition bare_state_world : world :=
  sample_world bare_state good_outputs example_request all_down.

Definition tagged_world : world :=
  sample_world good_state good_outputs tagged_request all_down.

Definition true_count_world : world :=
  sample_world good_state good_outputs true_count_request all_down.

Definition down_world : world :=
  sample_world good_state good_outputs example_request all_down.

Definition text_summary_world : world :=
  sample_world good_state text_summary_outputs example_request all_down.

(** ** What the rest of the scripts is measured against *)

Definition is_out (e : event) : bool :=
  match e with
  | Out _ => true
  | _ => false
  end.

(** Every event of the run satisfies [P]. *)
Definition only (P : event -> bool) {A : Type} (m : M A) : Prop :=
  forallb P (trace m) = true.

(** The run raises nothing but exceptions that satisfy [Q]. *)
Definition raises_only (Q : exn -> bool) {A : Type} (m : M A) : Prop :=
  match result m with
  | Raise e => Q e = true
  | Ret _ => True
  end.

(** [sys.exit] was called with 1, or the exception is an [Exception]. *)
Definition exit_one (e : exn) : bool :=
  match e with
  | SystemExit c => (c =? 1)%Z
  | _ => true
  end.

(** [sys.exit] was called with 1. *)
Definition sys_exit_one (e : exn) : bool :=
  match e with
  | SystemExit c => (c =? 1)%Z
  | _ => false
  end.

(** The other two verdict lines of [validate_input]. *)
Definition vm_count_line : event :=
  Out "❌ Error: vm_count must be a positive integer".

Definition environment_line {rt : Runtime} : event :=
  Out ("❌ Error: environment must be one of " ++ py_str (PList (map PStr valid_envs))).

(** The value is one of the strings dev, staging, production. *)
Definition valid_environment (env : pyval) : bool :=
  match env with
  | PStr s => String.eqb s "dev" || String.eqb s "staging" || String.eqb s "production"
  | _ => false
  end.

(** What [open] raises is an [Exception]. *)
Definition files_raise_exceptions (w : world) : Prop :=
  (forall path e, read_text w path = Raise e -> is_Exception e = true)
  /\ (forall path content e, write_text w path content = Some e -> is_Exception e = true).

(** A run of [parse_input] that can go through: the input is read and
    parses to an object that passes the validator, its tags (if any, and
    not empty) are a mapping, and the content can be written. *)
Definition parse_succeeds {rt : Runtime} (w : world) (inf outf content : string) : Prop :=
  exists text d head,
    read_text w inf = Ret text
    /\ json_loads text = Some (PDict d)
    /\ result (validate_input (PDict d)) = Ret true
    /\ tags_fine d = true
    /\ tfvars_head inf (PDict d) = (Ret head, [])
    /\ content = head ++ tags_text d
    /\ write_text w outf content = None.

(** A run of [parse_input] that gets as far as opening the variable file:
    the input is read and parses to an object that passes the validator,
    and its tags (if any, and not empty) are a mapping. *)
Definition reaches_write {rt : Runtime} (w : world) (inf : string) : Prop :=
  exists text d,
    read_text w inf = Ret text
    /\ json_loads text = Some (PDict d)
    /\ result (validate_input (PDict d)) = Ret true
    /\ tags_fine d = true.

(** The world [w] with another variable file: [wt] answers the writes. *)
Definition with_output (w : world) (wt : string -> string -> option exn) : world := {|
  shell := shell w;
  probe := probe w;
  read_text := read_text w;
  write_text := wt
|}.

Definition reading_line (inf : string) : event := Out ("📄 Reading input from: " ++ inf).

Definition not_found_line (inf : string) : event :=
  Out ("❌ Error: Input file '" ++ inf ++ "' not found").

(** Sample requests and worlds for the runs of [parse_input]. *)
Definition list_tags_fields : list (string * pyval) :=
  [("environment", PStr "dev"); ("vm_count", PInt 2);
   ("vm_size", PStr "Standard_B2s"); ("location", PStr "eastus");
   ("project_name", PStr "demo"); ("tags", PList [PStr "infra"])].

Definition empty_tags_fields : list (string * pyval) :=
  [("environment", PStr "dev"); ("vm_count", PInt 2);
   ("vm_size", PStr "Standard_B2s"); ("location", PStr "eastus");
   ("project_name", PStr "demo"); ("tags", PDict [])].

Definition bad_both_fields : list (string * pyval) :=
  [("environment", PStr "test"); ("vm_count", PInt 0);
   ("vm_size", PStr "Standard_B2s"); ("location", PStr "eastus");
   ("project_name", PStr "demo")].

(** A world with the request [text] in the input file, where opening the
    variable file raises [failure] (or succeeds, for [None]). *)
Definition file_world (input : res string) (failure : option exn) : world := {|
  shell := fun _ =>
    {| returncode := 1; stdout := EmptyString; stderr := EmptyString |};
  probe := fun _ _ => Some 1%Z;
  read_text := fun _ => input;
  write_text := fun _ _ => failure
|}.

(** The steps of a run: the functions entered and the commands started. *)
Definition is_step (e : event) : bool :=
  match e with
  | Call _ | Exec _ => true
  | _ => false
  end.

Definition skeleton (t : list event) : list event := filter is_step t.

Definition resources_failure_line : event :=
  Out (nl ++ "❌ Validation failed: Missing resources").

(** The steps of the five stages of [main]. *)
Definition state_steps : list event :=
  [Call "check_terraform_state"; Exec show_cmd].

Definition outputs_steps : list event :=
  [Call "get_terraform_outputs"; Exec output_cmd].

(** The pings of a run that are started: one per address, in order, up to
    the first address whose ping cannot be started. *)
Fixpoint started_pings {rt : Runtime} (w : world) (ivs : list (nat * pyval)) : list event :=
  match ivs with
  | [] => []
  | iv :: rest =>
      if starts w iv then Exec (ping_cmd (snd iv)) :: started_pings w rest else []
  end.

Definition probe_steps {rt : Runtime} (w : world) (outputs : pyval) : list event :=
  Call "ping_vms" :: started_pings w (enumerate1 (public_ips outputs)).

(** A world whose outputs lack the two address lists. *)
Definition two_key_world : world :=
  sample_world good_state two_key_outputs example_request all_down.

(** The summary [generate_report] reads its seven fields from: the [value]
    of provisioning_summary, or an empty mapping. *)
Definition summary_of (d : list (string * pyval)) : list (string * pyval) :=
  match lookup "provisioning_summary" d with
  | Some (PDict e) =>
      match lookup "value" e with
      | Some (PDict s) => s
      | _ => []
      end
  | _ => []
  end.

(** The seven lines of the summary: label and field. *)
Definition report_fields : list (string * string) :=
  [(nl ++ "🎯 Environment: ", "environment");
   ("📦 Project: ", "project_name");
   ("🌍 Location: ", "location");
   ("🖥️  VM Count: ", "vm_count");
   ("💻 VM Size: ", "vm_size");
   ("🐧 OS Type: ", "os_type");
   ("⏰ Created: ", "creation_time")].

(** The line of one field: its value in the summary, or N/A. *)
Definition field_line {rt : Runtime} (d : list (string * pyval)) (lk : string * string) : event :=
  Out (fst lk ++ py_str (match lookup (snd lk) (summary_of d) with
                         | Some v => v
                         | None => PStr "N/A"
                         end)).

Definition completed_line : event := Out "✅ VALIDATION COMPLETED".

Definition no_outputs_line : event := Out "❌ No outputs available".

(** A runtime that also reads the requests with unusual tags. *)
Definition more_docs : list pyval :=
  (sample_docs ++ [PDict list_tags_fields; PDict empty_tags_fields;
                   PDict bad_both_fields])%list.

Definition wide_runtime : Runtime := {|
  str_strip := sample_strip;
  json_loads := fun text => find (fun v => String.eqb (dumps v) text) more_docs;
  repr_str := fun s => "'" ++ s ++ "'";
  repr_float := fun _ => "0.0";
  exn_message := fun e =>
    match e with
    | AttributeError => "'list' object has no attribute 'items'"
    | FileNotFoundError => "No such file or directory"
    | JSONDecodeError => "Expecting value: line 1 column 1 (char 0)"
    | _ => "error"
    end
|}.

(** ** Running the monad *)

Arguments String.eqb : simpl never.

Section Runs.
Context {A B : Type}.

Lemma result_bind (m : M A) (f : A -> M B) :
  result (bind m f)
  = match result m with
    | Ret a => result (f a)
    | Raise e => Raise e
    end.
Proof.
  destruct m as [[a | e] t]; simpl; [destruct (f a) |]; reflexivity.
Qed.

Lemma trace_bind (m : M A) (f : A -> M B) :
  trace (bind m f)
  = match result m with
    | Ret a => (trace m ++ trace (f a))%list
    | Raise _ => trace m
    end.
Proof.
  destruct m as [[a | e] t]; simpl; [destruct (f a) |]; reflexivity.
Qed.

Lemma bind_pure (a : A) (f : A -> M B) : bind (Ret a, []) f = f a.
Proof. simpl. destruct (f a); reflexivity. Qed.

End Runs.

Lemma run_eta {A : Type} (m : M A) : m = (result m, trace m).
Proof. destruct m; reflexivity. Qed.

(** ** Strings and lines *)

Lemma append_assoc (a b c : string) : (a ++ b) ++ c = a ++ b ++ c.
Proof. induction a as [| x a IH]; simpl; [| rewrite IH]; reflexivity. Qed.

Lemma append_empty_r (a : string) : a ++ EmptyString = a.
Proof. induction a as [| x a IH]; simpl; [| rewrite IH]; reflexivity. Qed.

Lemma lines_line (l rest : string) :
  newline_free l = true -> lines (l ++ nl ++ rest) = l :: lines rest.
Proof.
  induction l as [| c l IH]; intros Hfree.
  - reflexivity.
  - simpl in Hfree. apply andb_prop in Hfree as [Hc Hl].
    apply negb_true_iff in Hc.
    change (lines (String c l ++ nl ++ rest))
      with (if Ascii.eqb c (ascii_of_nat 10)
            then EmptyString :: lines (l ++ nl ++ rest)
            else match lines (l ++ nl ++ rest) with
                 | [] => [String c EmptyString]
                 | x :: xs => String c x :: xs
                 end).
    rewrite Hc, (IH Hl). reflexivity.
Qed.

Lemma lines_skip (x s l : string) :
  In l (tl (lines s)) -> In l (tl (lines (x ++ s))).
Proof.
  induction x as [| c x IH]; intros Hin; [exact Hin |].
  specialize (IH Hin). simpl.
  destruct (Ascii.eqb c (ascii_of_nat 10)).
  - simpl. destruct (lines (x ++ s)); [contradiction | right; exact IH].
  - destruct (lines (x ++ s)); [contradiction | exact IH].
Qed.

(** A line that follows a line break somewhere in a text is one of the
    lines of the text. *)
Lemma line_after_break (x l rest : string) :
  newline_free l = true -> In l (lines (x ++ nl ++ l ++ nl ++ rest)).
Proof.
  intros Hfree.
  assert (Htl : In l (tl (lines (x ++ nl ++ l ++ nl ++ rest)))).
  { apply lines_skip. change (In l (lines (l ++ nl ++ rest))).
    rewrite (lines_line _ _ Hfree). left. reflexivity. }
  destruct (lines (x ++ nl ++ l ++ nl ++ rest)); [contradiction | right; exact Htl].
Qed.

Lemma concat_cons (x : string) (xs : list string) :
  String.concat EmptyString (x :: xs) = x ++ String.concat EmptyString xs.
Proof.
  destruct xs as [| y ys]; simpl; [rewrite append_empty_r |]; reflexivity.
Qed.

(** ** parse_input.py: the request validator *)

Section Requests.
Context {rt : Runtime}.

Lemma required_loop_stops (pre post : list string) (f : string) (d : list (string * pyval)) :
  (forall g, In g pre -> has_key g d = true) ->
  has_key f d = false ->
  required_loop (pre ++ f :: post) (PDict d) = (Ret false, [missing_message f]).
Proof.
  induction pre as [| g pre IH]; intros Hpre Hf; simpl.
  - rewrite Hf. reflexivity.
  - rewrite (Hpre g (or_introl eq_refl)). simpl.
    rewrite IH; [reflexivity | | exact Hf].
    intros h Hh. apply Hpre. right. exact Hh.
Qed.

Lemma required_loop_passes (fields : list string) (d : list (string * pyval)) :
  (forall g, In g fields -> has_key g d = true) ->
  required_loop fields (PDict d) = (Ret true, []).
Proof.
  induction fields as [| g fields IH]; intros Hall; simpl; [reflexivity |].
  rewrite (Hall g (or_introl eq_refl)). simpl.
  rewrite IH; [reflexivity |]. intros h Hh. apply Hall. right. exact Hh.
Qed.

Lemma first_missing (fields : list string) (d : list (string * pyval)) :
  (exists f, In f fields /\ has_key f d = false) ->
  exists pre f post,
    fields = (pre ++ f :: post)%list
    /\ (forall g, In g pre -> has_key g d = true)
    /\ has_key f d = false.
Proof.
  induction fields as [| g fields IH]; intros [f [Hin Hf]]; [contradiction |].
  destruct (has_key g d) eqn:Hg.
  - destruct Hin as [-> | Hin]; [congruence |].
    destruct IH as (pre & f' & post & -> & Hpre & Hf'); [exists f; auto |].
    exists (g :: pre), f', post. repeat split; auto.
    intros h [<- | Hh]; auto.
  - exists [], g, fields. repeat split; auto.
Qed.

Lemma has_key_lookup (k : string) (d : list (string * pyval)) :
  has_key k d = true -> exists v, lookup k d = Some v.
Proof.
  unfold has_key. destruct (lookup k d) as [v |]; [eauto | discriminate].
Qed.

Lemma vm_count_rejected_run (d : list (string * pyval)) (vc : pyval) :
  lookup "vm_count" d = Some vc ->
  vm_count_rejected (PDict d) = (Ret (negb (accepted_count vc)), []).
Proof.
  intros Hvc. unfold vm_count_rejected. simpl. rewrite Hvc.
  destruct vc as [| [|] | n | | | |]; simpl; rewrite ?Hvc; simpl; try reflexivity.
  destruct (Z.ltb_spec n 1), (Z.leb_spec 1 n); try lia; reflexivity.
Qed.

Lemma validate_input_passes (d : list (string * pyval)) (vc : pyval) (e : string) :
  (forall g, In g required_fields -> has_key g d = true) ->
  lookup "vm_count" d = Some vc ->
  accepted_count vc = true ->
  lookup "environment" d = Some (PStr e) ->
  In e valid_envs ->
  validate_input (PDict d) = (Ret true, [passed_message]).
Proof.
  intros Hall Hvc Hacc Henv Hin. unfold validate_input.
  rewrite (required_loop_passes _ _ Hall). rewrite bind_pure. simpl negb. cbv iota.
  rewrite (vm_count_rejected_run _ _ Hvc), Hacc. rewrite bind_pure. simpl negb. cbv iota.
  simpl. rewrite Henv.
  destruct Hin as [<- | [<- | [<- | []]]]; reflexivity.
Qed.

(** What a request that passed the validator looks like. *)
Lemma validate_input_true (d : list (string * pyval)) :
  result (validate_input (PDict d)) = Ret true ->
  (forall g, In g required_fields -> has_key g d = true)
  /\ (exists vc, lookup "vm_count" d = Some vc /\ accepted_count vc = true)
  /\ (exists e, lookup "environment" d = Some (PStr e) /\ In e valid_envs)
  /\ validate_input (PDict d) = (Ret true, [passed_message]).
Proof.
  intros Hres.
  assert (Hall : forall g, In g required_fields -> has_key g d = true).
  { destruct (forallb (fun g => has_key g d) required_fields) eqn:Hfa.
    - rewrite forallb_forall in Hfa. exact Hfa.
    - exfalso.
      assert (Hex : exists f, In f required_fields /\ has_key f d = false).
      { apply not_true_iff_false in Hfa.
        destruct (existsb (fun g => negb (has_key g d)) required_fields) eqn:Hx.
        - apply existsb_exists in Hx as [f [Hf Hn]]. exists f. split; [exact Hf |].
          apply negb_true_iff. exact Hn.
        - exfalso. apply Hfa. apply forallb_forall. intros g Hg.
          destruct (has_key g d) eqn:Hk; [reflexivity |].
          assert (Hc : existsb (fun g => negb (has_key g d)) required_fields = true).
          { apply existsb_exists. exists g. rewrite Hk. auto. }
          congruence. }
      apply first_missing in Hex as (pre & f & post & Heq & Hpre & Hf).
      unfold validate_input in Hres. rewrite Heq in Hres.
      rewrite (required_loop_stops pre post f d Hpre Hf) in Hres.
      simpl in Hres. discriminate. }
  destruct (has_key_lookup "vm_count" d) as [vc Hvc]; [apply Hall; simpl; auto |].
  destruct (has_key_lookup "environment" d) as [env Henv]; [apply Hall; simpl; auto |].
  unfold validate_input in Hres.
  rewrite (required_loop_passes _ _ Hall), bind_pure in Hres. simpl negb in Hres.
  cbv iota in Hres.
  rewrite (vm_count_rejected_run _ _ Hvc), bind_pure in Hres.
  destruct (accepted_count vc) eqn:Hacc; simpl in Hres; [| discriminate].
  rewrite Henv in Hres. simpl in Hres.
  assert (Hin : exists e, env = PStr e /\ In e valid_envs).
  { destruct env as [| | | | e | |]; simpl in Hres; try discriminate.
    unfold valid_envs. simpl.
    destruct (String.eqb_spec "dev" e); [eauto 6 |].
    destruct (String.eqb_spec "staging" e); [eauto 6 |].
    destruct (String.eqb_spec "production" e); [eauto 6 |].
    simpl in Hres. discriminate. }
  destruct Hin as (e & -> & Hin).
  repeat split; eauto using validate_input_passes.
Qed.

End Requests.

(** ** parse_input.py: the variable file *)

Section VariableFile.
Context {rt : Runtime}.

Lemma fold_add_tag (items : list (string * pyval)) (init : string) :
  fold_left add_tag items init = init ++ String.concat EmptyString (map tag_line items).
Proof.
  revert init. induction items as [| kv items IH]; intros init.
  - simpl. rewrite append_empty_r. reflexivity.
  - change (fold_left add_tag (kv :: items) init)
      with (fold_left add_tag items (add_tag init kv)).
    rewrite IH. change (map tag_line (kv :: items)) with (tag_line kv :: map tag_line items).
    rewrite concat_cons. unfold add_tag, tag_line.
    rewrite !append_assoc. reflexivity.
Qed.

Lemma add_tags_run (d : list (string * pyval)) (content : string) :
  tags_fine d = true ->
  add_tags (PDict d) content = (Ret (content ++ tags_text d), []).
Proof.
  unfold tags_fine, tags_text, add_tags. cbn [lift py_in getitem bind]. unfold has_key.
  destruct (lookup "tags" d) as [t |] eqn:Ht.
  - intros Hfine. cbn [bind ret lift app].
    destruct (truthy t) eqn:Htr.
    + destruct t as [| | | | | | items]; try discriminate Hfine.
      destruct items as [| kv items]; [discriminate Htr |].
      cbn [bind ret lift app getitem py_items].
      rewrite fold_add_tag. unfold tags_block. rewrite !append_assoc. reflexivity.
    + cbn [bind ret lift app].
      destruct t as [| | | | | | [| kv items]]; try discriminate Htr;
        rewrite append_empty_r; reflexivity.
  - intros _. cbn [bind ret lift app]. rewrite append_empty_r. reflexivity.
Qed.

(** The head of the file, around its [vm_count] line. *)
Lemma tfvars_head_run (inf : string) (d : list (string * pyval)) (vc : pyval) :
  (forall g, In g required_fields -> has_key g d = true) ->
  lookup "vm_count" d = Some vc ->
  exists pre post,
    tfvars_head inf (PDict d)
    = (Ret (pre ++ nl ++ ("vm_count         = " ++ py_str vc) ++ nl ++ post), []).
Proof.
  intros Hall H4.
  destruct (has_key_lookup "environment" d) as [v1 H1]; [apply Hall; simpl; auto |].
  destruct (has_key_lookup "project_name" d) as [v2 H2]; [apply Hall; simpl; auto 6 |].
  destruct (has_key_lookup "location" d) as [v3 H3]; [apply Hall; simpl; auto 6 |].
  destruct (has_key_lookup "vm_size" d) as [v5 H5]; [apply Hall; simpl; auto |].
  unfold tfvars_head. cbn [bind ret lift app getitem py_get].
  rewrite H1, H2, H3, H4, H5. cbn [bind ret lift app].
  exists ("# Auto-generated Terraform variables" ++ nl
          ++ "# Generated from: " ++ inf ++ nl
          ++ nl
          ++ "environment      = " ++ dq ++ py_str v1 ++ dq ++ nl
          ++ "project_name     = " ++ dq ++ py_str v2 ++ dq ++ nl
          ++ "location         = " ++ dq ++ py_str v3 ++ dq).
  eexists. rewrite !append_assoc. reflexivity.
Qed.

(** A run of [parse_input] on a request that passes the validator, when the
    variable file can be written. *)
Lemma parse_input_run (w : world) (inf outf text : string)
      (d : list (string * pyval)) (head : string) :
  read_text w inf = Ret text ->
  json_loads text = Some (PDict d) ->
  result (validate_input (PDict d)) = Ret true ->
  tfvars_head inf (PDict d) = (Ret head, []) ->
  tags_fine d = true ->
  write_text w outf (head ++ tags_text d) = None ->
  result (parse_input w inf outf) = Ret true
  /\ written (trace (parse_input w inf outf)) = Some (head ++ tags_text d).
Proof.
  intros Hread Hparse Hval Hhead Hfine Hwrite.
  apply validate_input_true in Hval as (Hall & _ & _ & Hval).
  destruct (has_key_lookup "environment" d) as [v1 H1]; [apply Hall; simpl; auto |].
  destruct (has_key_lookup "project_name" d) as [v2 H2]; [apply Hall; simpl; auto 6 |].
  destruct (has_key_lookup "location" d) as [v3 H3]; [apply Hall; simpl; auto 6 |].
  destruct (has_key_lookup "vm_count" d) as [v4 H4]; [apply Hall; simpl; auto |].
  destruct (has_key_lookup "vm_size" d) as [v5 H5]; [apply Hall; simpl; auto |].
  unfold parse_input, read_json. rewrite Hread.
  cbn [bind lift]. rewrite Hparse.
  cbn [bind ret lift app print emit]. rewrite Hval.
  cbn [bind ret lift app print emit negb]. rewrite Hhead.
  cbn [bind ret lift app print emit negb]. rewrite (add_tags_run _ _ Hfine).
  cbn [bind ret lift app print emit negb]. unfold write_file. rewrite Hwrite.
  cbn [bind ret lift app print emit negb getitem]. rewrite H1, H2, H3, H4, H5.
  cbn [bind ret lift app print emit negb getitem catch result trace fst snd written
       passed_message].
  split; reflexivity.
Qed.

End VariableFile.

(** ** Claims about parse_input.py *)

Section RequestClaims.
Context {rt : Runtime}.

(** C7. A request (a JSON object) that lacks one or more of the required
    fields environment, vm_count, vm_size, location, project_name is
    rejected by [validate_input]: the required fields split into a part
    that is all present, the first missing field, and the rest, and the
    run returns [False] after printing a single line, the one that names
    this first missing field; no later check leaves a line. *)
Theorem missing_field_reported (d : list (string * pyval)) :
  (exists f, In f required_fields /\ has_key f d = false) ->
  exists pre f post,
    required_fields = (pre ++ f :: post)%list
    /\ (forall g, In g pre -> has_key g d = true)
    /\ has_key f d = false
    /\ validate_input (PDict d) = (Ret false, [missing_message f]).
Proof.
  intros Hex. apply first_missing in Hex as (pre & f & post & Heq & Hpre & Hf).
  exists pre, f, post. repeat split; auto.
  unfold validate_input. rewrite Heq, (required_loop_stops pre post f d Hpre Hf).
  reflexivity.
Qed.

(** C8, at the input where the code departs from it.  The vm_count test
    of [validate_input] rejects every value but an integer that is at least
    1 and the boolean [true]: it agrees with the claim on all integers and
    on every other value that is not an integer, and it lets the JSON
    boolean [true] through.  The request whose vm_count is [true], with all
    required fields present, passes the validator. *)
Theorem true_count_passes_validator :
  (forall d vc,
     lookup "vm_count" d = Some vc ->
     vm_count_rejected (PDict d)
     = (Ret (match vc with
             | PInt n => (n <? 1)%Z
             | PBool b => negb b
             | _ => true
             end), []))
  /\ vm_count_rejected true_count_request = (Ret false, [])
  /\ validate_input true_count_request = (Ret true, [passed_message]).
Proof.
  split; [| split; reflexivity].
  intros d vc Hvc. rewrite (vm_count_rejected_run d vc Hvc).
  destruct vc as [| b | n | | | |]; try reflexivity.
  simpl. destruct (Z.ltb_spec n 1), (Z.leb_spec 1 n); try lia; reflexivity.
Qed.

(** C10. When vm_count is the JSON boolean [true], in a request with the
    required fields and a valid environment, the integer test of
    [validate_input] does not reject it, the validator passes, and the
    variable file [parse_input] writes has the line
    [vm_count         = True]. *)
Theorem true_count_rendered (w : world) (inf outf text : string)
        (d : list (string * pyval)) :
  read_text w inf = Ret text ->
  json_loads text = Some (PDict d) ->
  (forall g, In g required_fields -> has_key g d = true) ->
  lookup "vm_count" d = Some (PBool true) ->
  (exists e, lookup "environment" d = Some (PStr e) /\ In e valid_envs) ->
  tags_fine d = true ->
  (forall c, write_text w outf c = None) ->
  vm_count_rejected (PDict d) = (Ret false, [])
  /\ validate_input (PDict d) = (Ret true, [passed_message])
  /\ result (parse_input w inf outf) = Ret true
  /\ exists content,
       written (trace (parse_input w inf outf)) = Some content
       /\ In "vm_count         = True" (lines content).
Proof.
  intros Hread Hparse Hall Hvc (e & Henv & He) Hfine Hwrite.
  assert (Hval : validate_input (PDict d) = (Ret true, [passed_message])).
  { apply (validate_input_passes d (PBool true) e); auto. }
  split; [apply (vm_count_rejected_run d (PBool true) Hvc) |].
  split; [exact Hval |].
  destruct (tfvars_head_run inf d (PBool true) Hall Hvc) as (pre & post & Hhead).
  assert (Hpass : result (validate_input (PDict d)) = Ret true)
    by (rewrite Hval; reflexivity).
  destruct (parse_input_run w inf outf text d _ Hread Hparse Hpass Hhead Hfine (Hwrite _))
    as [Hres Hwritten].
  split; [exact Hres |].
  eexists. split; [exact Hwritten |].
  rewrite !append_assoc.
  exact (line_after_break pre "vm_count         = True" (post ++ tags_text d) eq_refl).
Qed.

(** C9. The run of [parse_input] on the example request
    {environment: dev, vm_count: 2, vm_size: Standard_B2s, location:
    eastus, project_name: demo} writes a variable file that has the line
    [vm_count         = 2], the line [admin_username   = "azureuser"] and
    no line that opens a tags block.  And for every request that passes the
    validator and carries a non-empty tags mapping, the file written is the
    head of assignments followed by the tags block: [tags = {], one line
    [  key = "value"] per entry in the order of the mapping, and [}]. *)
Theorem example_request_rendered (w : world) (text : string) :
  read_text w input_file = Ret text ->
  (forall c, write_text w output_file c = None) ->
  (json_loads text = Some example_request ->
   exists content,
     written (trace (parse_input w input_file output_file)) = Some content
     /\ In "vm_count         = 2" (lines content)
     /\ In ("admin_username   = " ++ dq ++ "azureuser" ++ dq) (lines content)
     /\ existsb (String.prefix "tags") (lines content) = false)
  /\ (forall d tags,
        json_loads text = Some (PDict d) ->
        result (validate_input (PDict d)) = Ret true ->
        lookup "tags" d = Some (PDict tags) ->
        tags <> [] ->
        exists head,
          tfvars_head input_file (PDict d) = (Ret head, [])
          /\ written (trace (parse_input w input_file output_file))
             = Some (head ++ nl ++ "tags = {" ++ nl
                     ++ String.concat EmptyString
                          (map (fun kv => "  " ++ fst kv ++ " = "
                                          ++ dq ++ py_str (snd kv) ++ dq ++ nl) tags)
                     ++ "}" ++ nl)).
Proof.
  intros Hread Hwrite. split.
  - intros Hparse.
    destruct (parse_input_run w input_file output_file text example_fields
                (match result (tfvars_head input_file example_request) with
                 | Ret h => h
                 | Raise _ => EmptyString
                 end) Hread Hparse) as [_ Hwritten];
      [reflexivity | reflexivity | reflexivity | apply Hwrite |].
    eexists. split; [exact Hwritten |].
    vm_compute. intuition.
  - intros d tags Hparse Hval Htags Hne.
    pose proof (validate_input_true d Hval) as (Hall & (vc & Hvc & _) & _).
    destruct (tfvars_head_run input_file d vc Hall Hvc) as (pre & post & Hhead).
    assert (Hfine : tags_fine d = true).
    { unfold tags_fine. rewrite Htags. apply orb_true_r. }
    destruct (parse_input_run w input_file output_file text d _ Hread Hparse Hval Hhead Hfine)
      as [_ Hwritten]; [apply Hwrite |].
    eexists. split; [exact Hhead |].
    rewrite Hwritten. unfold tags_text. rewrite Htags.
    destruct tags as [| kv tags]; [congruence |]. reflexivity.
Qed.

End RequestClaims.

(** ** validate.py: the state check *)

Ltac run := cbn [bind ret lift raise emit print app result trace fst snd negb catch].

Section StateCheck.
Context {rt : Runtime}.

Lemma check_state_trace (w : world) :
  forallb state_event (trace (check_terraform_state w)) = true.
Proof.
  unfold check_terraform_state, run_command. run.
  destruct (returncode (shell w show_cmd) =? 0)%Z; run; [| reflexivity].
  destruct (str_strip (stdout (shell w show_cmd))) as [| c text]; [reflexivity |].
  cbn [no_result truthy negb].
  destruct (json_loads (String c text)) as [state |]; run; [| reflexivity].
  destruct state as [| | | | s | l | d]; cbn [py_in]; run; try reflexivity.
  - destruct (substring_of "values" s); reflexivity.
  - destruct (existsb (is_str "values") l); reflexivity.
  - unfold has_key. cbn [getitem].
    destruct (lookup "values" d) as [values |]; run; [| reflexivity].
    destruct (py_in "root_module" values) as [[|] | e]; reflexivity.
Qed.

Lemma check_state_fails (w : world) :
  state_fetch_fails w ->
  result (check_terraform_state w) = Ret false
  \/ result (check_terraform_state w) = Raise TypeError.
Proof.
  unfold state_fetch_fails, answer, check_terraform_state, run_command. run.
  intros Hfail.
  destruct (Z.eqb_spec (returncode (shell w show_cmd)) 0) as [Hrc | Hrc]; run;
    [| left; reflexivity].
  destruct Hfail as [Hfail | Hfail]; [contradiction |].
  destruct (str_strip (stdout (shell w show_cmd))) as [| c text]; [left; reflexivity |].
  cbn [no_result truthy negb].
  destruct Hfail as [Hfail | [Hfail | (state & Hparse & Hlack)]];
    [discriminate | rewrite Hfail; left; reflexivity |].
  rewrite Hparse. unfold required_structure, holds_root_module in Hlack.
  destruct state as [| | | | s | l | d]; cbn [py_in]; run; auto.
  - destruct (substring_of "values" s); auto.
  - destruct (existsb (is_str "values") l); auto.
  - unfold has_key. cbn [getitem].
    destruct (lookup "values" d) as [values |]; run; auto.
    destruct values as [| | | | s | l | vs]; cbn [py_in] in *; run; auto;
      rewrite Hlack; auto.
Qed.

(** The check on a state document that is an object with an object (or
    nothing) under [values]. *)
Lemma check_object_state (w : world) (state : pyval) :
  returncode (shell w show_cmd) = 0%Z ->
  answer w show_cmd <> EmptyString ->
  json_loads (answer w show_cmd) = Some state ->
  object_state state = true ->
  check_terraform_state w
  = (Ret (root_module_present state),
     [Call "check_terraform_state"; Out (nl ++ "🔍 Checking Terraform state...");
      Exec show_cmd;
      if root_module_present state then Out "✅ Terraform state is valid"
      else invalid_state_line]).
Proof.
  unfold answer, check_terraform_state, run_command. run.
  intros Hrc Hne Hparse Hobj. rewrite Hrc. cbn [Z.eqb]. run.
  destruct (str_strip (stdout (shell w show_cmd))) as [| c text]; [congruence |].
  cbn [no_result truthy negb]. rewrite Hparse.
  destruct state as [| | | | | | d]; try discriminate Hobj.
  cbn [py_in getitem object_state root_module_present] in *. unfold has_key. run.
  destruct (lookup "values" d) as [[| | | | | | vs] |]; try discriminate Hobj; run;
    [| reflexivity].
  cbn [py_in]. unfold has_key. run.
  destruct (lookup "root_module" vs); reflexivity.
Qed.

Lemma main_state_false (w : world) :
  result (check_terraform_state w) = Ret false ->
  main w = (Raise (SystemExit 1),
            (start_line :: trace (check_terraform_state w) ++ [state_failure_line])%list).
Proof.
  intros Hres. unfold main. rewrite (run_eta (check_terraform_state w)), Hres.
  run. reflexivity.
Qed.

Lemma main_state_raise (w : world) (e : exn) :
  result (check_terraform_state w) = Raise e ->
  main w = (Raise e, start_line :: trace (check_terraform_state w)).
Proof.
  intros Hres. unfold main. rewrite (run_eta (check_terraform_state w)), Hres.
  run. reflexivity.
Qed.

Lemma state_events_calls (t : list event) (fn : string) :
  forallb state_event t = true -> In (Call fn) t -> fn = "check_terraform_state".
Proof.
  intros Hall Hin. rewrite forallb_forall in Hall.
  apply Hall in Hin. apply String.eqb_eq in Hin. exact Hin.
Qed.

Lemma state_events_execs (t : list event) (cmd : string) :
  forallb state_event t = true -> In (Exec cmd) t -> cmd = show_cmd.
Proof.
  intros Hall Hin. rewrite forallb_forall in Hall.
  apply Hall in Hin. apply String.eqb_eq in Hin. exact Hin.
Qed.

(** After a state check that does not say valid, the run is over: nothing
    but the state check was entered and nothing but its command started. *)
Lemma main_stops_at_state (w : world) :
  result (check_terraform_state w) <> Ret true ->
  (forall fn, In (Call fn) (trace (main w)) -> fn = "check_terraform_state")
  /\ (forall cmd, In (Exec cmd) (trace (main w)) -> cmd = show_cmd).
Proof.
  intros Hres. pose proof (check_state_trace w) as Hall.
  destruct (result (check_terraform_state w)) as [[|] | e] eqn:Hr; [congruence | |].
  - rewrite (main_state_false w Hr). cbn [trace snd]. split; intros x Hin.
    + destruct Hin as [Hin | Hin]; [discriminate |].
      apply in_app_or in Hin as [Hin | [Hin | []]]; [| discriminate].
      exact (state_events_calls _ _ Hall Hin).
    + destruct Hin as [Hin | Hin]; [discriminate |].
      apply in_app_or in Hin as [Hin | [Hin | []]]; [| discriminate].
      exact (state_events_execs _ _ Hall Hin).
  - rewrite (main_state_raise w e Hr). cbn [trace snd]. split; intros x Hin.
    + destruct Hin as [Hin | Hin]; [discriminate |].
      exact (state_events_calls _ _ Hall Hin).
    + destruct Hin as [Hin | Hin]; [discriminate |].
      exact (state_events_execs _ _ Hall Hin).
Qed.

End StateCheck.

(** ** Claims about the state check *)

Section StateClaims.
Context {rt : Runtime}.

(** C1. When the state fetch fails (the command exits non-zero, its output
    is empty or does not parse, or the parsed state lacks the structure the
    check requires), the run ends at once with exit code 1: either
    [main] prints the invalid-state failure and exits with 1, or the check
    itself dies of a TypeError, which also ends the process with 1.  The
    outputs are not fetched, and [validate_resources], [ping_vms] and
    [generate_report] are not entered; the only command started is the
    state query. *)
Theorem state_failure_halts (w : world) :
  state_fetch_fails w ->
  Validate.script w = 1%Z
  /\ ((result (main w) = Raise (SystemExit 1)
       /\ In state_failure_line (trace (main w)))
      \/ result (main w) = Raise TypeError)
  /\ ~ invoked "get_terraform_outputs" (trace (main w))
  /\ ~ started output_cmd (trace (main w))
  /\ ~ invoked "validate_resources" (trace (main w))
  /\ ~ invoked "ping_vms" (trace (main w))
  /\ (forall ip, ~ started (ping_cmd ip) (trace (main w)))
  /\ ~ invoked "generate_report" (trace (main w)).
Proof.
  intros Hfail. pose proof (check_state_fails w Hfail) as Hres.
  assert (Hnot : result (check_terraform_state w) <> Ret true)
    by (destruct Hres as [-> | ->]; discriminate).
  destruct (main_stops_at_state w Hnot) as [Hcalls Hexecs].
  unfold invoked, started, Validate.script, exit_code.
  repeat split.
  - destruct Hres as [Hr | Hr];
      [rewrite (main_state_false w Hr) | rewrite (main_state_raise w _ Hr)]; reflexivity.
  - destruct Hres as [Hr | Hr].
    + left. rewrite (main_state_false w Hr). split; [reflexivity |].
      right. apply in_or_app. right. left. reflexivity.
    + right. rewrite (main_state_raise w _ Hr). reflexivity.
  - intros Hin. apply Hcalls in Hin. discriminate.
  - intros Hin. apply Hexecs in Hin. discriminate.
  - intros Hin. apply Hcalls in Hin. discriminate.
  - intros Hin. apply Hcalls in Hin. discriminate.
  - intros ip Hin. apply Hexecs in Hin. discriminate.
  - intros Hin. apply Hcalls in Hin. discriminate.
Qed.

(** C4, as the code has it.  For a state document that is a JSON object
    whose [values] member, when there is one, is a JSON object, the check
    says valid exactly when the key [root_module] is present under
    [values], whatever it holds (an empty root module too); for every other
    such document it prints the invalid-state line and returns [False]. *)
Theorem state_valid_iff_root_module_key (w : world) (state : pyval) :
  returncode (shell w show_cmd) = 0%Z ->
  answer w show_cmd <> EmptyString ->
  json_loads (answer w show_cmd) = Some state ->
  object_state state = true ->
  (result (check_terraform_state w) = Ret true <-> root_module_present state = true)
  /\ (root_module_present state = false ->
      result (check_terraform_state w) = Ret false
      /\ In invalid_state_line (trace (check_terraform_state w))).
Proof.
  intros Hrc Hne Hparse Hobj.
  rewrite (check_object_state w state Hrc Hne Hparse Hobj). cbn [result trace fst snd].
  split.
  - split; [intros [= ->] | intros ->]; reflexivity.
  - intros ->. split; [reflexivity |]. simpl. auto.
Qed.

End StateClaims.

(** C4 as the specification words it fails on a state whose root module is
    present and empty: the check says valid. *)
Lemma empty_root_module_judged_valid :
  @json_loads sample_runtime (answer (rt := sample_runtime) empty_root_world show_cmd)
  = Some empty_root_state
  /\ ~ validity_as_stated (rt := sample_runtime) empty_root_world empty_root_state.
Proof.
  split; [reflexivity |].
  unfold validity_as_stated. intros [Hvalid _].
  specialize (Hvalid eq_refl). discriminate Hvalid.
Qed.

(** ** validate.py: outputs, resources, probe and report *)

Section Resources.
Context {rt : Runtime}.

Lemma entry_ok_cases (key : string) (want : bool) (d : list (string * pyval)) :
  entry_ok key want d = true ->
  lookup key d = None
  \/ exists e v, lookup key d = Some (PDict e) /\ lookup "value" e = Some v
                 /\ (want = true -> sized v = true).
Proof.
  unfold entry_ok.
  destruct (lookup key d) as [[| | | | | | e] |]; try discriminate; [| auto].
  destruct (lookup "value" e) as [v |] eqn:Hv; [| discriminate].
  intros Hw. right. exists e, v.
  split; [reflexivity |]. split; [exact Hv |]. intros ->. exact Hw.
Qed.

Lemma sized_cases (v : pyval) :
  sized v = true -> exists n l, py_len v = Ret n /\ py_iter v = Ret l.
Proof. destruct v; simpl; intros Hs; try discriminate Hs; eauto. Qed.

Lemma print_items_run (l : list pyval) :
  print_items l = (Ret tt, map (fun x => Out ("    - " ++ py_str x)) l).
Proof.
  unfold print_items. induction l as [| x l IH]; [reflexivity |].
  cbn [for_each map]. rewrite IH. reflexivity.
Qed.

Lemma no_diagnostics {A : Type} (f : A -> string) (l : list A) :
  (forall x, is_diagnostic (Out (f x)) = false) ->
  filter is_diagnostic (map (fun x => Out (f x)) l) = [].
Proof.
  intros Hf. induction l as [| x l IH]; [reflexivity |].
  cbn [map filter]. rewrite Hf. exact IH.
Qed.

Ltac evaluate :=
  repeat (run; cbn [getitem py_in negb andb filter map snd];
          repeat match goal with
                 | H : lookup _ _ = _ |- _ => rewrite H
                 | H : py_len _ = _ |- _ => rewrite H
                 | H : py_iter _ = _ |- _ => rewrite H
                 end;
          rewrite ?print_items_run).

Lemma validate_resources_run (d : list (string * pyval)) :
  outputs_shaped d = true ->
  exists t,
    validate_resources (PDict d) = (Ret (all_present d), Call "validate_resources" :: t)
    /\ diagnostics t = missing_lines d.
Proof.
  unfold outputs_shaped. intros Hshape.
  apply andb_prop in Hshape as [Hshape H4].
  apply andb_prop in Hshape as [Hshape H3].
  apply andb_prop in Hshape as [H1 H2].
  apply entry_ok_cases in H1, H2, H3, H4.
  unfold all_present, missing_lines, required_outputs, has_key.
  cbn [forallb filter map fst snd].
  unfold validate_resources, output_value. cbn [py_in getitem lift]. unfold has_key.
  destruct H1 as [H1 | (e1 & v1 & H1 & V1 & _)];
  destruct H2 as [H2 | (e2 & v2 & H2 & V2 & S2)];
  destruct H3 as [H3 | (e3 & v3 & H3 & V3 & S3)];
  destruct H4 as [H4 | (e4 & v4 & H4 & V4 & S4)];
  try (destruct (sized_cases v2 (S2 eq_refl)) as (n2 & l2 & Ln2 & Li2));
  try (destruct (sized_cases v3 (S3 eq_refl)) as (n3 & l3 & Ln3 & Li3));
  try (destruct (sized_cases v4 (S4 eq_refl)) as (n4 & l4 & Ln4 & Li4));
  evaluate;
  (eexists; split; [reflexivity |]);
  unfold diagnostics;
  repeat (simpl; rewrite ?filter_app; rewrite ?no_diagnostics by reflexivity).
  all: reflexivity.
Qed.

Lemma len_sized (v : pyval) (n : Z) : py_len v = Ret n -> sized v = true.
Proof. destruct v; simpl; intros H; try discriminate H; reflexivity. Qed.

Ltac refute := try (intros Hx; discriminate Hx).

Ltac key_step k :=
  match goal with
  | |- context [lookup k ?d] =>
      let L := fresh "L" in
      destruct (lookup k d) as [[| | | | | | ?e] |] eqn:L; evaluate; refute
  end.

Ltac value_step :=
  try match goal with
      | |- context [lookup "value" ?e] =>
          let V := fresh "V" in
          destruct (lookup "value" e) as [?v |] eqn:V; evaluate; refute
      end.

Ltac len_step :=
  try match goal with
      | |- context [py_len ?v] =>
          let N := fresh "N" in
          destruct (py_len v) as [?n | ?x] eqn:N; evaluate; refute;
          let l := fresh "l" in
          let I := fresh "I" in
          destruct (sized_cases v (len_sized v _ N)) as (? & l & _ & I);
          evaluate; refute
      end.

Lemma validate_resources_true (outputs : pyval) :
  result (validate_resources outputs) = Ret true ->
  exists d, outputs = PDict d /\ outputs_shaped d = true /\ all_present d = true.
Proof.
  unfold validate_resources, output_value.
  destruct outputs as [| | | | s | l | d]; cbn [py_in getitem lift]; evaluate; refute.
  - repeat match goal with
           | |- context [substring_of ?k s] => destruct (substring_of k s); evaluate; refute
           end.
  - repeat match goal with
           | |- context [existsb ?f l] => destruct (existsb f l); evaluate; refute
           end.
  - unfold has_key.
    key_step "resource_group_name"; value_step;
    key_step "vm_names"; value_step; len_step;
    key_step "vm_public_ips"; value_step; len_step;
    key_step "vm_private_ips"; value_step; len_step.
    intros _. exists d. split; [reflexivity |].
    unfold outputs_shaped, entry_ok, all_present, required_outputs, has_key.
    cbn [forallb fst].
    rewrite L, L0, L1, L2, V, V0, V1, V2.
    rewrite (len_sized _ _ N), (len_sized _ _ N0), (len_sized _ _ N1).
    split; reflexivity.
Qed.


Lemma in_bind_left {A B : Type} (m : M A) (f : A -> M B) (e : event) :
  In e (trace m) -> In e (trace (bind m f)).
Proof.
  rewrite trace_bind. destruct (result m); [| auto].
  intros Hin. apply in_or_app. left. exact Hin.
Qed.

Lemma in_bind_right {A B : Type} (m : M A) (f : A -> M B) (a : A) (e : event) :
  result m = Ret a -> In e (trace (f a)) -> In e (trace (bind m f)).
Proof.
  intros Hres Hin. rewrite trace_bind, Hres. apply in_or_app. right. exact Hin.
Qed.

Lemma result_bind_ret {A B : Type} (m : M A) (f : A -> M B) (a : A) :
  result m = Ret a -> result (bind m f) = result (f a).
Proof. intros Hres. rewrite result_bind, Hres. reflexivity. Qed.

Lemma for_each_result {A : Type} (body : A -> M unit) (l : list A) :
  (forall x, result (body x) = Ret tt) -> result (for_each l body) = Ret tt.
Proof.
  intros Hbody. induction l as [| x l IH]; [reflexivity |].
  cbn [for_each]. rewrite (result_bind_ret _ _ tt (Hbody x)). exact IH.
Qed.

Lemma for_each_all {A : Type} (ok : A -> bool) (body : A -> M unit) (l : list A) :
  (forall x, ok x = true -> result (body x) = Ret tt) ->
  forallb ok l = true -> result (for_each l body) = Ret tt.
Proof.
  intros Hok. induction l as [| x l IH]; [reflexivity |].
  cbn [forallb for_each]. intros H. apply andb_prop in H as [Hx Hl].
  rewrite (result_bind_ret _ _ tt (Hok x Hx)). exact (IH Hl).
Qed.

Lemma for_each_stops {A : Type} (ok : A -> bool) (body : A -> M unit) (l : list A) :
  (forall x, ok x = true -> result (body x) = Ret tt) ->
  (forall x, ok x = false -> exists e, result (body x) = Raise e) ->
  forallb ok l = false -> exists e, result (for_each l body) = Raise e.
Proof.
  intros Hok Hno. induction l as [| x l IH]; [discriminate |].
  cbn [forallb for_each]. rewrite result_bind.
  destruct (ok x) eqn:Hx.
  - rewrite (Hok x Hx). cbn [andb]. exact IH.
  - intros _. destruct (Hno x Hx) as [e ->]. exists e. reflexivity.
Qed.

Lemma ping_one_result (w : world) (iv : nat * pyval) :
  starts w iv = true -> result (ping_one w iv) = Ret tt.
Proof.
  destruct iv as [i ip]. unfold starts, ping_one, subprocess_run. cbn [fst snd].
  intros H. apply andb_prop in H as [Hn Hp]. apply negb_true_iff in Hn. rewrite Hn.
  destruct (probe w i (ping_cmd ip)) as [rc |]; [| discriminate Hp]. run.
  destruct (rc =? 0)%Z; reflexivity.
Qed.

Lemma ping_one_aborts (w : world) (iv : nat * pyval) :
  starts w iv = false ->
  result (ping_one w iv)
  = Raise (if has_nul (ping_cmd (snd iv)) then ValueError else OSError).
Proof.
  destruct iv as [i ip]. unfold starts, ping_one, subprocess_run. cbn [fst snd].
  destruct (has_nul (ping_cmd ip)); [reflexivity |]. cbn [negb andb].
  destruct (probe w i (ping_cmd ip)) as [rc |]; [discriminate | reflexivity].
Qed.

Lemma ping_vms_skips (w : world) (d : list (string * pyval)) :
  lookup "vm_public_ips" d = None ->
  ping_vms w (PDict d)
  = (Ret true, [Call "ping_vms"; Out (nl ++ "🌐 Testing VM connectivity..."); skip_line]).
Proof.
  intros Hnone. unfold ping_vms. cbn [py_in lift]. unfold has_key. rewrite Hnone.
  run. reflexivity.
Qed.

Lemma ping_vms_result (w : world) (d : list (string * pyval)) :
  entry_ok "vm_public_ips" true d = true ->
  pings_start w (PDict d) = true ->
  result (ping_vms w (PDict d)) = Ret true.
Proof.
  intros Hok. apply entry_ok_cases in Hok as [Hnone | (e & v & He & Hv & Hs)].
  - intros _. rewrite (ping_vms_skips w d Hnone). reflexivity.
  - destruct (sized_cases v (Hs eq_refl)) as (n & l & _ & Hl).
    unfold pings_start, public_ips. rewrite He, Hv, Hl. intros Hstart.
    unfold ping_vms, output_value. cbn [py_in getitem lift]. unfold has_key.
    evaluate.
    rewrite (run_eta (for_each (enumerate1 l) (ping_one w))).
    rewrite (for_each_all _ _ _ (ping_one_result w) Hstart). run. reflexivity.
Qed.

(** A ping that cannot be started ends [ping_vms] with its exception. *)
Lemma ping_vms_aborts (w : world) (d : list (string * pyval)) :
  pings_start w (PDict d) = false ->
  exists e, result (ping_vms w (PDict d)) = Raise e.
Proof.
  unfold pings_start, public_ips.
  destruct (lookup "vm_public_ips" d) as [[| | | | | | e] |] eqn:He; try discriminate.
  destruct (lookup "value" e) as [v |] eqn:Hv; [| discriminate].
  destruct (py_iter v) as [l | x] eqn:Hl; [| discriminate].
  intros Hstart.
  unfold ping_vms, output_value. cbn [py_in getitem lift]. unfold has_key.
  evaluate.
  rewrite (run_eta (for_each (enumerate1 l) (ping_one w))).
  destruct (for_each_stops (starts w) (ping_one w) (enumerate1 l)
              (ping_one_result w)
              (fun x Hx => ex_intro _ _ (ping_one_aborts w x Hx)) Hstart) as [x' ->].
  run. exists x'. reflexivity.
Qed.

Lemma print_command_result (ic : nat * pyval) : result (print_command ic) = Ret tt.
Proof. destruct ic. reflexivity. Qed.

Lemma generate_report_result (d : list (string * pyval)) :
  report_shaped d = true -> result (generate_report (PDict d)) = Ret tt.
Proof.
  unfold report_shaped. intros Hshape. apply andb_prop in Hshape as [Hsum Hcmd].
  unfold generate_report, print_field, output_value. run.
  destruct (truthy (PDict d)); run; [| reflexivity].
  cbn [py_get py_in getitem lift]. unfold has_key.
  apply entry_ok_cases in Hcmd.
  destruct (lookup "provisioning_summary" d) as [[| | | | | | e] |];
    try discriminate Hsum; cbn [py_get]; run.
  - destruct (lookup "value" e) as [[| | | | | | s] |]; try discriminate Hsum;
      cbn [py_get]; run;
      (destruct Hcmd as [Hc | (c & v & Hc & Hv & Hs)]; evaluate;
       [reflexivity |];
       destruct (sized_cases v (Hs eq_refl)) as (n & l & _ & Hl);
       evaluate;
       rewrite (run_eta (for_each (enumerate1 l) print_command));
       rewrite (for_each_result _ _ print_command_result); run; reflexivity).
  - destruct Hcmd as [Hc | (c & v & Hc & Hv & Hs)]; evaluate;
      [reflexivity |].
    destruct (sized_cases v (Hs eq_refl)) as (n & l & _ & Hl).
    evaluate.
    rewrite (run_eta (for_each (enumerate1 l) print_command)).
    rewrite (for_each_result _ _ print_command_result). run. reflexivity.
Qed.


Lemma get_outputs_fetched (w : world) (outputs : pyval) :
  outputs_fetched w outputs ->
  get_terraform_outputs w
  = (Ret outputs,
     [Call "get_terraform_outputs"; Out (nl ++ "📊 Retrieving Terraform outputs...");
      Exec output_cmd]).
Proof.
  unfold outputs_fetched, answer, get_terraform_outputs, run_command.
  intros (Hrc & Hne & Hparse). rewrite Hrc. cbn [Z.eqb]. run.
  destruct (str_strip (stdout (shell w output_cmd))) as [| c text]; [congruence |].
  cbn [no_result truthy negb]. rewrite Hparse. reflexivity.
Qed.

Lemma get_outputs_unavailable (w : world) :
  outputs_unavailable w ->
  result (get_terraform_outputs w) = Ret PNone.
Proof.
  unfold outputs_unavailable, answer, get_terraform_outputs, run_command.
  intros Hun. run.
  destruct (Z.eqb_spec (returncode (shell w output_cmd)) 0) as [Hrc | Hrc]; run;
    [| reflexivity].
  destruct Hun as [Hun | Hun]; [contradiction |].
  destruct (str_strip (stdout (shell w output_cmd))) as [| c text]; [reflexivity |].
  cbn [no_result truthy negb].
  destruct Hun as [Hun | Hun]; [discriminate |]. rewrite Hun. reflexivity.
Qed.

Lemma get_outputs_trace (w : world) :
  forallb outputs_event (trace (get_terraform_outputs w)) = true.
Proof.
  unfold get_terraform_outputs, run_command. run.
  destruct (returncode (shell w output_cmd) =? 0)%Z; run; [| reflexivity].
  destruct (str_strip (stdout (shell w output_cmd))) as [| c text]; [reflexivity |].
  cbn [no_result truthy negb].
  destruct (json_loads (String c text)); reflexivity.
Qed.

(** A run whose state check passed and whose outputs are empty or absent. *)
Lemma main_outputs_falsy (w : world) (outputs : pyval) :
  result (check_terraform_state w) = Ret true ->
  result (get_terraform_outputs w) = Ret outputs ->
  truthy outputs = false ->
  main w = (Raise (SystemExit 1),
            (start_line :: trace (check_terraform_state w)
               ++ trace (get_terraform_outputs w) ++ [outputs_failure_line])%list).
Proof.
  intros Hstate Hget Hfalsy. unfold main.
  rewrite (run_eta (check_terraform_state w)), Hstate. run.
  rewrite (run_eta (get_terraform_outputs w)), Hget. run.
  rewrite Hfalsy. run. reflexivity.
Qed.

Lemma validate_resources_enters (outputs : pyval) :
  In (Call "validate_resources") (trace (validate_resources outputs)).
Proof. unfold validate_resources. apply in_bind_left. left. reflexivity. Qed.


Lemma main_reaches_validate (w : world) (outputs : pyval) :
  result (check_terraform_state w) = Ret true ->
  result (get_terraform_outputs w) = Ret outputs ->
  truthy outputs = true ->
  In (Call "validate_resources") (trace (main w)).
Proof.
  intros Hstate Hget Htruthy. unfold main.
  apply (in_bind_right _ _ tt); [reflexivity |].
  apply (in_bind_right _ _ true); [exact Hstate |]. cbn [negb].
  apply (in_bind_right _ _ tt); [reflexivity |].
  apply (in_bind_right _ _ outputs); [exact Hget |]. rewrite Htruthy. cbn [negb].
  apply (in_bind_right _ _ tt); [reflexivity |].
  apply in_bind_left. apply validate_resources_enters.
Qed.


End Resources.

(** ** Claims about outputs, resources and the probe *)

Section PipelineClaims.
Context {rt : Runtime}.



(** C5, as the code has it.  With the four required keys present,
    [validate_resources] returns [True] exactly when each of the four
    outputs is an object with a [value] member and the values of vm_names,
    vm_public_ips and vm_private_ips have a length (a sequence, a string or
    a mapping); nothing else about the values matters. *)
Theorem resources_true_iff_shaped (d : list (string * pyval)) :
  all_present d = true ->
  (result (validate_resources (PDict d)) = Ret true <-> outputs_shaped d = true).
Proof.
  intros Hall. split.
  - intros Hres. apply validate_resources_true in Hres as (d' & [= <-] & Hshape & _).
    exact Hshape.
  - intros Hshape. destruct (validate_resources_run d Hshape) as (t & Hrun & _).
    rewrite Hrun, Hall. reflexivity.
Qed.

Lemma present_truthy (d : list (string * pyval)) :
  all_present d = true -> truthy (PDict d) = true.
Proof. destruct d; [discriminate | reflexivity]. Qed.

(** C3, as the code has it.  After a state check that passed: every
    outputs document that the fetch returns and that parses to a value that
    is not empty (an object with at least one key, recognised or not) takes
    the run on to [validate_resources]; a failed invocation, an empty or
    unparsable output, and also a document that parses to an empty value
    (such as the object without keys) end the run with the
    could-not-retrieve-outputs failure and exit code 1, before
    [validate_resources]. *)
Theorem outputs_gate (w : world) :
  result (check_terraform_state w) = Ret true ->
  (forall outputs,
     outputs_fetched w outputs -> truthy outputs = true ->
     invoked "validate_resources" (trace (main w)))
  /\ (outputs_unavailable w
      \/ (exists outputs, outputs_fetched w outputs /\ truthy outputs = false) ->
      result (main w) = Raise (SystemExit 1)
      /\ Validate.script w = 1%Z
      /\ In outputs_failure_line (trace (main w))
      /\ ~ invoked "validate_resources" (trace (main w))).
Proof.
  intros Hstate. split.
  - intros outputs Hfetch Htruthy.
    apply (main_reaches_validate w outputs Hstate); [| exact Htruthy].
    rewrite (get_outputs_fetched w outputs Hfetch). reflexivity.
  - intros Hnone.
    assert (Hget : exists outputs,
               result (get_terraform_outputs w) = Ret outputs /\ truthy outputs = false).
    { destruct Hnone as [Hun | (outputs & Hfetch & Hfalsy)].
      - exists PNone. split; [apply get_outputs_unavailable; exact Hun | reflexivity].
      - exists outputs. rewrite (get_outputs_fetched w outputs Hfetch). auto. }
    destruct Hget as (outputs & Hget & Hfalsy).
    unfold Validate.script, exit_code, invoked.
    rewrite (main_outputs_falsy w outputs Hstate Hget Hfalsy). cbn [result trace fst snd].
    repeat split.
    + right. apply in_or_app. right. apply in_or_app. right. left. reflexivity.
    + intros [Hin | Hin]; [discriminate |].
      apply in_app_or in Hin as [Hin | Hin].
      * apply (state_events_calls _ _ (check_state_trace w)) in Hin. discriminate.
      * apply in_app_or in Hin as [Hin | [Hin | []]]; [| discriminate].
        pose proof (get_outputs_trace w) as Hall. rewrite forallb_forall in Hall.
        apply Hall in Hin. discriminate.
Qed.


End PipelineClaims.

(** C3 as the specification words it fails on the outputs document without
    keys: it is fetched and parsed, and the run stops before
    [validate_resources]. *)
Lemma empty_outputs_stop_the_run :
  outputs_fetched (rt := sample_runtime) empty_outputs_world empty_outputs
  /\ ~ proceeds_as_stated (rt := sample_runtime) empty_outputs_world empty_outputs.
Proof.
  assert (Hfetch : outputs_fetched (rt := sample_runtime) empty_outputs_world empty_outputs).
  { repeat split. vm_compute. discriminate. }
  split; [exact Hfetch |].
  intros Hclaim. specialize (Hclaim eq_refl Hfetch).
  vm_compute in Hclaim. intuition discriminate.
Qed.


Lemma count_value_breaks_validator :
  all_present count_fields = true
  /\ result (validate_resources (rt := sample_runtime) count_outputs) = Raise TypeError
  /\ ~ presence_only_as_stated (rt := sample_runtime) count_fields.
Proof.
  split; [reflexivity |]. split; [reflexivity |].
  intros Hclaim. specialize (Hclaim eq_refl). discriminate Hclaim.
Qed.

(** ** The claims on the sample documents *)

Lemma missing_field_reported_witness :
  (exists f, In f required_fields /\ has_key f no_size_fields = false)
  /\ exists pre f post,
       required_fields = (pre ++ f :: post)%list
       /\ (forall g, In g pre -> has_key g no_size_fields = true)
       /\ has_key f no_size_fields = false
       /\ validate_input (rt := sample_runtime) no_size_request
          = (Ret false, [missing_message f]).
Proof.
  assert (Hex : exists f, In f required_fields /\ has_key f no_size_fields = false).
  { exists "vm_size". split; [simpl; auto | reflexivity]. }
  split; [exact Hex |].
  exact (missing_field_reported (rt := sample_runtime) no_size_fields Hex).
Defined.

Lemma true_count_rendered_witness :
  read_text true_count_world input_file = Ret (dumps true_count_request)
  /\ validate_input (rt := sample_runtime) true_count_request = (Ret true, [passed_message])
  /\ exists content,
       written (trace (parse_input (rt := sample_runtime)
                         true_count_world input_file output_file)) = Some content
       /\ In "vm_count         = True" (lines content).
Proof.
  split; [reflexivity |].
  assert (Hall : forall g, In g required_fields -> has_key g true_count_fields = true).
  { intros g [<- | [<- | [<- | [<- | [<- | []]]]]]; reflexivity. }
  assert (Henv : exists e, lookup "environment" true_count_fields = Some (PStr e)
                           /\ In e valid_envs).
  { exists "dev". split; [reflexivity | simpl; auto]. }
  destruct (true_count_rendered (rt := sample_runtime) true_count_world
              input_file output_file (dumps true_count_request) true_count_fields
              eq_refl eq_refl Hall eq_refl Henv eq_refl (fun _ => eq_refl))
    as (_ & Hval & _ & Hfile).
  split; [exact Hval | exact Hfile].
Defined.

Lemma example_request_rendered_witness :
  (exists content,
     written (trace (parse_input (rt := sample_runtime)
                       down_world input_file output_file)) = Some content
     /\ In "vm_count         = 2" (lines content)
     /\ In ("admin_username   = " ++ dq ++ "azureuser" ++ dq) (lines content)
     /\ existsb (String.prefix "tags") (lines content) = false)
  /\ (exists head,
        tfvars_head (rt := sample_runtime) input_file tagged_request = (Ret head, [])
        /\ written (trace (parse_input (rt := sample_runtime)
                             tagged_world input_file output_file))
           = Some (head ++ nl ++ "tags = {" ++ nl
                   ++ "  team = " ++ dq ++ "infra" ++ dq ++ nl
                   ++ "  tier = " ++ dq ++ "prod" ++ dq ++ nl
                   ++ "}" ++ nl)).
Proof.
  split.
  - apply (proj1 (example_request_rendered (rt := sample_runtime) down_world
                    (dumps example_request) eq_refl (fun _ => eq_refl))).
    reflexivity.
  - apply (proj2 (example_request_rendered (rt := sample_runtime) tagged_world
                    (dumps tagged_request) eq_refl (fun _ => eq_refl))
             tagged_fields example_tags); [reflexivity | reflexivity | reflexivity |].
    discriminate.
Defined.

Lemma state_failure_halts_witness :
  state_fetch_fails (rt := sample_runtime) broken_world
  /\ Validate.script (rt := sample_runtime) broken_world = 1%Z
  /\ ~ invoked "validate_resources" (trace (main (rt := sample_runtime) broken_world))
  /\ ~ invoked "generate_report" (trace (main (rt := sample_runtime) broken_world)).
Proof.
  assert (Hfail : state_fetch_fails (rt := sample_runtime) broken_world).
  { left. vm_compute. discriminate. }
  split; [exact Hfail |].
  destruct (state_failure_halts (rt := sample_runtime) broken_world Hfail)
    as (Hcode & _ & _ & _ & Hval & _ & _ & Hrep).
  split; [exact Hcode |]. split; [exact Hval | exact Hrep].
Defined.

Lemma state_valid_iff_root_module_key_witness :
  object_state empty_root_state = true
  /\ (result (check_terraform_state (rt := sample_runtime) empty_root_world) = Ret true
      <-> root_module_present empty_root_state = true)
  /\ object_state bare_state = true
  /\ result (check_terraform_state (rt := sample_runtime) bare_state_world) = Ret false.
Proof.
  assert (Hne : answer (rt := sample_runtime) empty_root_world show_cmd <> EmptyString)
    by (vm_compute; discriminate).
  assert (Hparse : @json_loads sample_runtime
                     (answer (rt := sample_runtime) empty_root_world show_cmd)
                   = Some empty_root_state)
    by (vm_compute; reflexivity).
  assert (Hne' : answer (rt := sample_runtime) bare_state_world show_cmd <> EmptyString)
    by (vm_compute; discriminate).
  assert (Hparse' : @json_loads sample_runtime
                      (answer (rt := sample_runtime) bare_state_world show_cmd)
                    = Some bare_state)
    by (vm_compute; reflexivity).
  split; [reflexivity |].
  split; [exact (proj1 (state_valid_iff_root_module_key (rt := sample_runtime)
                          empty_root_world empty_root_state eq_refl Hne Hparse eq_refl)) |].
  split; [reflexivity |].
  exact (proj1 (proj2 (state_valid_iff_root_module_key (rt := sample_runtime)
                         bare_state_world bare_state eq_refl Hne' Hparse' eq_refl)
                  eq_refl)).
Defined.


Lemma resources_true_iff_shaped_witness :
  all_present good_fields = true
  /\ (result (validate_resources (rt := sample_runtime) good_outputs) = Ret true
      <-> outputs_shaped good_fields = true)
  /\ all_present count_fields = true
  /\ (result (validate_resources (rt := sample_runtime) count_outputs) = Ret true
      <-> outputs_shaped count_fields = true).
Proof.
  split; [reflexivity |].
  split; [exact (resources_true_iff_shaped (rt := sample_runtime) good_fields eq_refl) |].
  split; [reflexivity |].
  exact (resources_true_iff_shaped (rt := sample_runtime) count_fields eq_refl).
Defined.

Lemma sample_outputs_fetched (state outputs request : pyval) (pings : nat -> Z) :
  @json_loads sample_runtime (dumps outputs) = Some outputs ->
  dumps outputs <> EmptyString ->
  sample_strip (dumps outputs ++ nl) = dumps outputs ->
  outputs_fetched (rt := sample_runtime)
    (sample_world state outputs request pings) outputs.
Proof.
  intros Hparse Hne Hstrip. unfold outputs_fetched, answer.
  change (stdout (shell (sample_world state outputs request pings) output_cmd))
    with (dumps outputs ++ nl).
  change (@str_strip sample_runtime) with sample_strip. rewrite Hstrip.
  split; [reflexivity |]. split; [exact Hne | exact Hparse].
Defined.

Lemma outputs_gate_witness :
  result (check_terraform_state (rt := sample_runtime) good_world) = Ret true
  /\ invoked "validate_resources" (trace (main (rt := sample_runtime) good_world))
  /\ result (main (rt := sample_runtime) empty_outputs_world) = Raise (SystemExit 1)
  /\ ~ invoked "validate_resources"
         (trace (main (rt := sample_runtime) empty_outputs_world)).
Proof.
  split; [reflexivity |]. split.
  - apply (proj1 (outputs_gate (rt := sample_runtime) good_world eq_refl) good_outputs);
      [| reflexivity].
    apply sample_outputs_fetched; [reflexivity | vm_compute; discriminate | reflexivity].
  - assert (Hfetch : outputs_fetched (rt := sample_runtime)
                       empty_outputs_world empty_outputs).
    { apply sample_outputs_fetched; [reflexivity | vm_compute; discriminate | reflexivity]. }
    destruct (proj2 (outputs_gate (rt := sample_runtime) empty_outputs_world eq_refl)
                (or_intror (ex_intro _ empty_outputs (conj Hfetch eq_refl))))
      as (Hres & _ & _ & Hnot).
    split; [exact Hres | exact Hnot].
Defined.



(** ** Composing runs *)

Section Composing.
Context {A B : Type}.

Lemma only_bind (P : event -> bool) (m : M A) (f : A -> M B) :
  only P m -> (forall a, only P (f a)) -> only P (bind m f).
Proof.
  unfold only. intros Hm Hf. rewrite trace_bind.
  destruct (result m) as [a | e]; [| exact Hm].
  rewrite forallb_app, Hm. apply Hf.
Qed.

Lemma raises_bind (Q : exn -> bool) (m : M A) (f : A -> M B) :
  raises_only Q m -> (forall a, raises_only Q (f a)) -> raises_only Q (bind m f).
Proof.
  unfold raises_only. intros Hm Hf. rewrite result_bind.
  destruct (result m) as [a | e]; [apply Hf | exact Hm].
Qed.

End Composing.

Lemma raises_weaken {A : Type} (Q Q' : exn -> bool) (m : M A) :
  (forall e, Q e = true -> Q' e = true) -> raises_only Q m -> raises_only Q' m.
Proof. unfold raises_only. intros HQ. destruct (result m); auto. Qed.

Lemma py_in_raises (k : string) (c : pyval) : raises_only is_Exception (lift (py_in k c)).
Proof. destruct c; exact I || reflexivity. Qed.

Lemma getitem_raises (c : pyval) (k : string) : raises_only is_Exception (lift (getitem c k)).
Proof.
  destruct c as [| | | | | | d]; try reflexivity.
  unfold raises_only. simpl. destruct (lookup k d); [exact I | reflexivity].
Qed.

Lemma py_get_raises (c : pyval) (k : string) (v : pyval) :
  raises_only is_Exception (lift (py_get c k v)).
Proof. destruct c; exact I || reflexivity. Qed.

Lemma py_iter_raises (c : pyval) : raises_only is_Exception (lift (py_iter c)).
Proof. destruct c; exact I || reflexivity. Qed.

Lemma py_len_raises (c : pyval) : raises_only is_Exception (lift (py_len c)).
Proof. destruct c; exact I || reflexivity. Qed.

Lemma only_for_each {A : Type} (P : event -> bool) (body : A -> M unit) (l : list A) :
  (forall x, only P (body x)) -> only P (for_each l body).
Proof.
  intros Hbody. induction l as [| x l IH]; [reflexivity |].
  apply only_bind; [apply Hbody | intros _; exact IH].
Qed.

Lemma raises_for_each {A : Type} (Q : exn -> bool) (body : A -> M unit) (l : list A) :
  (forall x, raises_only Q (body x)) -> raises_only Q (for_each l body).
Proof.
  intros Hbody. induction l as [| x l IH]; [exact I |].
  apply raises_bind; [apply Hbody | intros _; exact IH].
Qed.

(** Takes a run apart along its binds and branches. *)
Ltac compose :=
  repeat first
    [ apply only_bind; [| intros ?]
    | apply raises_bind; [| intros ?]
    | apply py_in_raises | apply getitem_raises | apply py_get_raises
    | apply py_iter_raises | apply py_len_raises
    | apply only_for_each; intros ?
    | apply raises_for_each; intros ?
    | reflexivity
    | exact I
    | match goal with
      | |- only _ (if ?b then _ else _) => destruct b
      | |- raises_only _ (if ?b then _ else _) => destruct b
      | |- only _ (let (_, _) := ?p in _) => destruct p
      | |- raises_only _ (let (_, _) := ?p in _) => destruct p
      | |- only _ (match ?x with Some _ => _ | None => _ end) => destruct x
      | |- raises_only _ (match ?x with Some _ => _ | None => _ end) => destruct x
      end ].

(** ** parse_input.py: the validator and the runs of the script *)

Section RequestRuns.
Context {rt : Runtime}.

Lemma required_loop_quiet (fields : list string) (data : pyval) :
  only is_out (required_loop fields data)
  /\ raises_only is_Exception (required_loop fields data).
Proof.
  induction fields as [| f fields [IHo IHr]]; [split; [reflexivity | exact I] |].
  split; cbn [required_loop]; compose; assumption.
Qed.

Lemma validate_input_quiet (data : pyval) :
  only is_out (validate_input data)
  /\ raises_only is_Exception (validate_input data).
Proof.
  destruct (required_loop_quiet required_fields data) as [Ho Hr].
  split; unfold validate_input, vm_count_rejected; compose; assumption.
Qed.

Lemma valid_environment_spec (env : pyval) :
  existsb (fun e => is_str e env) valid_envs = valid_environment env.
Proof.
  destruct env as [| | | | s | |]; try reflexivity.
  unfold valid_envs, valid_environment. cbn [existsb is_str].
  rewrite (String.eqb_sym "dev"), (String.eqb_sym "staging"), (String.eqb_sym "production").
  rewrite orb_false_r, orb_assoc. reflexivity.
Qed.

Lemma valid_environment_in (env : pyval) :
  valid_environment env = true <-> exists e, env = PStr e /\ In e valid_envs.
Proof.
  split.
  - destruct env as [| | | | s | |]; try discriminate. cbn [valid_environment].
    intros H. exists s. split; [reflexivity |].
    apply orb_prop in H as [H | H]; [apply orb_prop in H as [H | H] |];
      apply String.eqb_eq in H; subst; simpl; auto.
  - intros (e & -> & [<- | [<- | [<- | []]]]); reflexivity.
Qed.

Lemma validate_input_not_object (data : pyval) :
  is_dict data = false -> result (validate_input data) <> Ret true.
Proof.
  intros Hnd. unfold validate_input. rewrite result_bind.
  destruct (result (required_loop required_fields data)) as [[|] | e];
    cbn [negb]; try discriminate.
  rewrite result_bind.
  assert (Hrej : result (vm_count_rejected data) = Raise TypeError).
  { destruct data; try discriminate Hnd; reflexivity. }
  rewrite Hrej. discriminate.
Qed.

(** X2. [validate_input] returns [True] exactly on the JSON objects that
    have the five required fields, a vm_count that is an integer of at
    least 1 (or the boolean true) and an environment that is one of the
    strings dev, staging, production.  A document that is not an object (a
    list, a string, a number, null) is never accepted. *)
Theorem validate_input_accepts_iff (data : pyval) :
  result (validate_input data) = Ret true
  <-> exists d vc env,
        data = PDict d
        /\ (forall g, In g required_fields -> has_key g d = true)
        /\ lookup "vm_count" d = Some vc /\ accepted_count vc = true
        /\ lookup "environment" d = Some env /\ valid_environment env = true.
Proof.
  split.
  - intros Hres. destruct (is_dict data) eqn:Hd.
    + destruct data as [| | | | | | d]; try discriminate Hd.
      destruct (validate_input_true d Hres) as (Hall & (vc & Hvc & Hacc) & (e & He & Hin) & _).
      exists d, vc, (PStr e). repeat split; auto.
      apply valid_environment_in. eauto.
    + exfalso. exact (validate_input_not_object data Hd Hres).
  - intros (d & vc & env & -> & Hall & Hvc & Hacc & Henv & Hok).
    apply valid_environment_in in Hok as (e & -> & Hin).
    rewrite (validate_input_passes d vc e Hall Hvc Hacc Henv Hin). reflexivity.
Qed.

(** X1. On a request with all required fields, [validate_input] prints
    exactly one line and checks vm_count before environment: the vm_count
    error when vm_count is rejected (also when the environment is invalid
    too), else the environment error with the allowed values when
    environment is not one of the strings dev, staging, production, else
    the passed line; it returns [True] in the last case only. *)
Theorem validate_input_verdict (d : list (string * pyval)) (vc env : pyval) :
  (forall g, In g required_fields -> has_key g d = true) ->
  lookup "vm_count" d = Some vc ->
  lookup "environment" d = Some env ->
  validate_input (PDict d)
  = if negb (accepted_count vc) then (Ret false, [vm_count_line])
    else if negb (valid_environment env) then (Ret false, [environment_line])
         else (Ret true, [passed_message]).
Proof.
  intros Hall Hvc Henv. unfold validate_input.
  rewrite (required_loop_passes _ _ Hall), bind_pure. cbn [negb].
  rewrite (vm_count_rejected_run _ _ Hvc), bind_pure.
  destruct (accepted_count vc); cbn [negb]; [| reflexivity].
  cbn [lift getitem]. rewrite Henv. unfold lift. rewrite bind_pure.
  rewrite valid_environment_spec.
  destruct (valid_environment env); reflexivity.
Qed.

Lemma written_out_only (t u : list event) :
  forallb is_out t = true -> written (t ++ u) = written u.
Proof.
  induction t as [| e t IH]; [reflexivity |].
  cbn [forallb app]. intros H. apply andb_prop in H as [He Ht].
  destruct e; try discriminate He. cbn [written]. exact (IH Ht).
Qed.

Lemma written_quiet (t : list event) : forallb is_out t = true -> written t = None.
Proof.
  intros Ht. rewrite <- (app_nil_r t). rewrite (written_out_only t [] Ht). reflexivity.
Qed.

Lemma add_tags_fails (d : list (string * pyval)) (content : string) :
  tags_fine d = false -> add_tags (PDict d) content = (Raise AttributeError, []).
Proof.
  unfold tags_fine, add_tags. cbn [lift py_in getitem bind]. unfold has_key.
  destruct (lookup "tags" d) as [t |]; [| discriminate].
  intros Hfine. apply orb_false_elim in Hfine as [Htr Hd].
  apply negb_false_iff in Htr. cbn [bind ret lift app]. rewrite Htr.
  destruct t; try discriminate Hd; try discriminate Htr; reflexivity.
Qed.

Lemma tfvars_head_total (inf : string) (d : list (string * pyval)) :
  result (validate_input (PDict d)) = Ret true ->
  exists head, tfvars_head inf (PDict d) = (Ret head, []).
Proof.
  intros Hval. destruct (validate_input_true d Hval) as (Hall & (vc & Hvc & _) & _).
  destruct (tfvars_head_run inf d vc Hall Hvc) as (pre & post & Hhead). eauto.
Qed.

Ltac no_success :=
  let c := fresh "c" in
  intros c (? & ? & ? & ? & ? & ? & ? & ? & ? & ?); subst; congruence.

Lemma parse_succeeds_unique (w : world) (inf outf c c' : string) :
  parse_succeeds w inf outf c -> parse_succeeds w inf outf c' -> c = c'.
Proof.
  intros (text & d & head & H1 & H2 & _ & _ & H5 & H6 & _)
         (text' & d' & head' & H1' & H2' & _ & _ & H5' & H6' & _).
  subst. congruence.
Qed.

Lemma parse_input_outcome (w : world) (inf outf : string) :
  (exists content,
     parse_succeeds w inf outf content
     /\ result (parse_input w inf outf) = Ret true
     /\ written (trace (parse_input w inf outf)) = Some content)
  \/ ((forall content, ~ parse_succeeds w inf outf content)
      /\ result (parse_input w inf outf) <> Ret true
      /\ written (trace (parse_input w inf outf)) = None).
Proof.
  destruct (read_text w inf) as [text | e] eqn:Hread.
  2: { right. split; [no_success |].
       unfold parse_input, read_json. rewrite Hread. cbn [bind lift catch].
       destruct e; cbn [is_Exception]; run; split; (discriminate || reflexivity). }
  destruct (json_loads text) as [data |] eqn:Hparse.
  2: { right. split; [no_success |].
       unfold parse_input, read_json. rewrite Hread. cbn [bind lift]. rewrite Hparse.
       run. cbn [is_Exception]. run. split; (discriminate || reflexivity). }
  destruct (validate_input_quiet data) as [Hquiet _].
  unfold only in Hquiet.
  destruct (result (validate_input data)) as [[|] | e] eqn:Hval.
  - destruct (is_dict data) eqn:Hd;
      [| exfalso; exact (validate_input_not_object data Hd Hval)].
    destruct data as [| | | | | | d]; try discriminate Hd.
    destruct (tfvars_head_total inf d Hval) as [head Hhead].
    pose proof (validate_input_true d Hval) as (_ & _ & _ & Hrun).
    destruct (tags_fine d) eqn:Hfine.
    + destruct (write_text w outf (head ++ tags_text d)) as [e |] eqn:Hwrite.
      * right. split; [no_success |].
        unfold parse_input, read_json. rewrite Hread. cbn [bind lift]. rewrite Hparse.
        cbn [bind ret lift app print emit]. rewrite Hrun.
        cbn [bind ret lift app print emit negb]. rewrite Hhead.
        cbn [bind ret lift app print emit negb]. rewrite (add_tags_run _ _ Hfine).
        cbn [bind ret lift app print emit negb]. unfold write_file. rewrite Hwrite.
        run. destruct e; cbn [is_Exception]; run; split; (discriminate || reflexivity).
      * left. exists (head ++ tags_text d).
        destruct (parse_input_run w inf outf text d head Hread Hparse Hval Hhead Hfine Hwrite)
          as [Hres Hwritten].
        split; [| split; assumption].
        exists text, d, head. repeat split; assumption.
    + right. split; [no_success |].
      unfold parse_input, read_json. rewrite Hread. cbn [bind lift]. rewrite Hparse.
      cbn [bind ret lift app print emit]. rewrite Hrun.
      cbn [bind ret lift app print emit negb]. rewrite Hhead.
      cbn [bind ret lift app print emit negb]. rewrite (add_tags_fails _ _ Hfine).
      run. cbn [is_Exception]. run. split; (discriminate || reflexivity).
  - right. split; [no_success |].
    unfold parse_input, read_json. rewrite Hread. cbn [bind lift]. rewrite Hparse.
    cbn [bind ret lift app print emit].
    rewrite (run_eta (validate_input data)), Hval. run. cbn [is_Exception].
    split; [discriminate |].
    cbn [trace snd written]. rewrite app_nil_r. apply written_quiet. exact Hquiet.
  - right. split; [no_success |].
    unfold parse_input, read_json. rewrite Hread. cbn [bind lift]. rewrite Hparse.
    cbn [bind ret lift app print emit].
    rewrite (run_eta (validate_input data)), Hval. run.
    destruct e; cbn [is_Exception]; run;
      (split; [discriminate |]); cbn [trace snd written]; rewrite ?app_nil_r;
      rewrite ?written_out_only by exact Hquiet;
      rewrite ?written_quiet by exact Hquiet; reflexivity.
Qed.

(** A run that stops before the write step is the same run whatever the
    variable file would have answered. *)
Lemma parse_input_before_write (w : world) (inf outf : string)
      (wt : string -> string -> option exn) :
  ~ reaches_write w inf ->
  parse_input (with_output w wt) inf outf = parse_input w inf outf.
Proof.
  intros Hno. unfold parse_input, read_json. cbn [read_text with_output].
  destruct (read_text w inf) as [text | e] eqn:Hread; [| reflexivity].
  cbn [bind lift].
  destruct (json_loads text) as [data |] eqn:Hparse; [| reflexivity].
  cbn [bind ret lift app print emit].
  destruct (result (validate_input data)) as [[|] | e] eqn:Hval.
  - destruct (is_dict data) eqn:Hd;
      [| exfalso; exact (validate_input_not_object data Hd Hval)].
    destruct data as [| | | | | | d]; try discriminate Hd.
    destruct (tfvars_head_total inf d Hval) as [head Hhead].
    pose proof (validate_input_true d Hval) as (_ & _ & _ & Hrun).
    destruct (tags_fine d) eqn:Hfine.
    + exfalso. apply Hno. exists text, d. repeat split; assumption.
    + rewrite Hrun. cbn [bind ret lift app print emit negb]. rewrite Hhead.
      cbn [bind ret lift app print emit negb]. rewrite (add_tags_fails _ _ Hfine).
      reflexivity.
  - rewrite (run_eta (validate_input data)), Hval. reflexivity.
  - rewrite (run_eta (validate_input data)), Hval. reflexivity.
Qed.

(** X3. A run of [parse_input] returns [True] exactly when it can go
    through: the input is read, parses to an object that passes the
    validator, has tags that are absent, empty or a mapping, and the write
    of the variable file completes; the content written is then the head
    followed by the tags text.  A run that stops earlier (unreadable or
    invalid input, a request that fails validation, tags that are not a
    mapping) never gets to the variable file: it is the same run whatever
    that file would have answered, and it completes no write. *)
Theorem parse_input_writes_on_success (w : world) (inf outf : string) :
  (result (parse_input w inf outf) = Ret true
   <-> exists content, parse_succeeds w inf outf content)
  /\ (forall content,
        parse_succeeds w inf outf content ->
        written (trace (parse_input w inf outf)) = Some content)
  /\ (~ reaches_write w inf ->
      (forall wt, parse_input (with_output w wt) inf outf = parse_input w inf outf)
      /\ result (parse_input w inf outf) <> Ret true
      /\ written (trace (parse_input w inf outf)) = None).
Proof.
  assert (Hreach : forall content, parse_succeeds w inf outf content -> reaches_write w inf).
  { intros content (text & d & head & H1 & H2 & H3 & H4 & _). exists text, d. auto. }
  destruct (parse_input_outcome w inf outf)
    as [(c & Hok & Hres & Hwr) | (Hno & Hres & Hwr)].
  - split; [split; eauto |]. split.
    + intros content Hok'.
      rewrite Hwr, (parse_succeeds_unique w inf outf _ _ Hok Hok'). reflexivity.
    + intros Hstop. exfalso. exact (Hstop (Hreach c Hok)).
  - split; [split; [intros H; contradiction | intros [c Hc]; exfalso; exact (Hno c Hc)] |].
    split.
    + intros content Hc. exfalso. exact (Hno content Hc).
    + intros Hstop. split; [| split; [exact Hres | exact Hwr]].
      intros wt. exact (parse_input_before_write w inf outf wt Hstop).
Qed.

(** X4. A missing input file makes [parse_input] print the not-found line
    and return [False]; an input that is not JSON makes it print the
    invalid-JSON line with the decoder's message and return [False].  In
    both cases nothing else is printed, not even the reading line. *)
Theorem unreadable_input_reported (w : world) (inf outf : string) :
  (read_text w inf = Raise FileNotFoundError ->
   parse_input w inf outf = (Ret false, [not_found_line inf]))
  /\ (forall text,
        read_text w inf = Ret text -> json_loads text = None ->
        parse_input w inf outf
        = (Ret false,
           [Out ("❌ Error: Invalid JSON in input file: " ++ exn_message JSONDecodeError)])).
Proof.
  split.
  - intros Hread. unfold parse_input, read_json. rewrite Hread. reflexivity.
  - intros text Hread Hparse. unfold parse_input, read_json. rewrite Hread.
    cbn [bind lift]. rewrite Hparse. reflexivity.
Qed.

(** X5. When the validator returns [False], [parse_input] does not
    return: [sys.exit(1)] passes through [except Exception].  The run ends
    with SystemExit 1 after the reading line and the validator's lines,
    none of the handlers prints, and nothing is written. *)
Theorem invalid_request_exits (w : world) (inf outf text : string) (data : pyval) :
  read_text w inf = Ret text ->
  json_loads text = Some data ->
  result (validate_input data) = Ret false ->
  parse_input w inf outf
  = (Raise (SystemExit 1), reading_line inf :: trace (validate_input data))
  /\ written (trace (parse_input w inf outf)) = None.
Proof.
  intros Hread Hparse Hval.
  assert (Hrun : parse_input w inf outf
                 = (Raise (SystemExit 1), reading_line inf :: trace (validate_input data))).
  { unfold parse_input, read_json. rewrite Hread. cbn [bind lift]. rewrite Hparse.
    cbn [bind ret lift app print emit].
    rewrite (run_eta (validate_input data)), Hval. run. cbn [is_Exception].
    rewrite app_nil_r. reflexivity. }
  split; [exact Hrun |]. rewrite Hrun. cbn [trace snd written].
  apply written_quiet. apply validate_input_quiet.
Qed.

(** X6. When the variable file cannot be written, [parse_input] returns
    [False] after the reading and the passed lines and one error line.  If
    the failure is a FileNotFoundError (the directory of the variable file
    is missing), the handler for the input file takes it, and the line says
    that the input file was not found. *)
Theorem unwritable_output_reported (w : world) (inf outf text : string)
        (d : list (string * pyval)) (head : string) (e : exn) :
  read_text w inf = Ret text ->
  json_loads text = Some (PDict d) ->
  result (validate_input (PDict d)) = Ret true ->
  tags_fine d = true ->
  tfvars_head inf (PDict d) = (Ret head, []) ->
  write_text w outf (head ++ tags_text d) = Some e ->
  is_Exception e = true ->
  parse_input w inf outf
  = (Ret false,
     [reading_line inf; passed_message;
      match e with
      | FileNotFoundError => not_found_line inf
      | JSONDecodeError =>
          Out ("❌ Error: Invalid JSON in input file: " ++ exn_message e)
      | _ => Out ("❌ Error: " ++ exn_message e)
      end]).
Proof.
  intros Hread Hparse Hval Hfine Hhead Hwrite He.
  pose proof (validate_input_true d Hval) as (_ & _ & _ & Hrun).
  unfold parse_input, read_json. rewrite Hread. cbn [bind lift]. rewrite Hparse.
  cbn [bind ret lift app print emit]. rewrite Hrun.
  cbn [bind ret lift app print emit negb]. rewrite Hhead.
  cbn [bind ret lift app print emit negb]. rewrite (add_tags_run _ _ Hfine).
  cbn [bind ret lift app print emit negb]. unfold write_file. rewrite Hwrite.
  run. destruct e; try discriminate He; reflexivity.
Qed.

(** X7. Tags at the edges.  For a request that passes the validator, with
    a writable variable file: when tags is absent or empty (an empty
    mapping, null, an empty string or list, zero, false) the file written
    is the head alone, with no tags block; when tags is not empty and not a
    mapping, [.items()] fails, the run prints the error line with the
    AttributeError's message, returns [False], and writes nothing. *)
Theorem tags_edge_cases (w : world) (inf outf text : string) (d : list (string * pyval)) :
  read_text w inf = Ret text ->
  json_loads text = Some (PDict d) ->
  result (validate_input (PDict d)) = Ret true ->
  (forall c, write_text w outf c = None) ->
  exists head,
    tfvars_head inf (PDict d) = (Ret head, [])
    /\ ((lookup "tags" d = None
         \/ exists t, lookup "tags" d = Some t /\ truthy t = false) ->
        result (parse_input w inf outf) = Ret true
        /\ written (trace (parse_input w inf outf)) = Some head)
    /\ (forall t,
          lookup "tags" d = Some t -> truthy t = true -> is_dict t = false ->
          parse_input w inf outf
          = (Ret false,
             [reading_line inf; passed_message;
              Out ("❌ Error: " ++ exn_message AttributeError)])).
Proof.
  intros Hread Hparse Hval Hwrite.
  destruct (tfvars_head_total inf d Hval) as [head Hhead].
  exists head. split; [exact Hhead |]. split.
  - intros Hnone.
    assert (Hfine : tags_fine d = true).
    { unfold tags_fine. destruct Hnone as [-> | (t & -> & ->)]; reflexivity. }
    assert (Htext : tags_text d = EmptyString).
    { unfold tags_text.
      destruct Hnone as [-> | (t & -> & Ht)]; [reflexivity |].
      destruct t as [| | | | | | [| kv items]]; try reflexivity. discriminate Ht. }
    pose proof (parse_input_run w inf outf text d head Hread Hparse Hval Hhead Hfine
                  (Hwrite _)) as Hrun.
    rewrite Htext, append_empty_r in Hrun. exact Hrun.
  - intros t Ht Htr Hd.
    assert (Hfine : tags_fine d = false).
    { unfold tags_fine. rewrite Ht, Htr, Hd. reflexivity. }
    pose proof (validate_input_true d Hval) as (_ & _ & _ & Hrun).
    unfold parse_input, read_json. rewrite Hread. cbn [bind lift]. rewrite Hparse.
    cbn [bind ret lift app print emit]. rewrite Hrun.
    cbn [bind ret lift app print emit negb]. rewrite Hhead.
    cbn [bind ret lift app print emit negb]. rewrite (add_tags_fails _ _ Hfine).
    reflexivity.
Qed.

Lemma raises_catch {A : Type} (m : M A) (h : exn -> M A) :
  raises_only exit_one m ->
  (forall e, exists a, result (h e) = Ret a) ->
  raises_only sys_exit_one (catch m is_Exception h).
Proof.
  unfold raises_only, catch. intros Hm Hh.
  destruct m as [[a | e] t]; cbn [result fst] in *; [exact I |].
  destruct (is_Exception e) eqn:He.
  - specialize (Hh e). destruct (h e) as [r t']. cbn [result fst] in *.
    destruct Hh as [a ->]. exact I.
  - cbn [result fst]. destruct e; try discriminate He. exact Hm.
Qed.

Lemma exception_exit_one (e : exn) : is_Exception e = true -> exit_one e = true.
Proof. destruct e; try reflexivity. discriminate. Qed.

Lemma written_app (t u : list event) :
  written (t ++ u) = match written t with Some c => Some c | None => written u end.
Proof.
  induction t as [| e t IH]; [reflexivity |].
  destruct e; cbn [app written]; try exact IH. reflexivity.
Qed.

(** When it does not return, [parse_input] has called [sys.exit(1)]. *)
Lemma parse_input_raises (w : world) (inf outf : string) :
  files_raise_exceptions w -> raises_only sys_exit_one (parse_input w inf outf).
Proof.
  intros [Hr Hw]. unfold parse_input. apply raises_catch.
  - unfold read_json, tfvars_head, add_tags, write_file.
    assert (Hread : raises_only exit_one (lift (read_text w inf))).
    { unfold raises_only, lift. cbn [result fst].
      destruct (read_text w inf) as [text | e] eqn:E; [exact I |].
      apply exception_exit_one. exact (Hr _ _ E). }
    assert (Hval : forall data, raises_only exit_one (validate_input data)).
    { intros data. apply (raises_weaken is_Exception); [apply exception_exit_one |].
      apply validate_input_quiet. }
    assert (Hlift : forall (X : Type) (r : M X),
               raises_only is_Exception r -> raises_only exit_one r).
    { intros X r. apply raises_weaken. apply exception_exit_one. }
    repeat first
      [ apply raises_bind; [| intros ?]
      | exact Hread | apply Hval
      | apply Hlift; first [ apply py_in_raises | apply getitem_raises
                           | apply py_get_raises ]
      | reflexivity | exact I
      | match goal with
        | |- raises_only _ (if ?b then _ else _) => destruct b
        | |- raises_only _ (match json_loads ?x with _ => _ end) =>
            destruct (json_loads x)
        | |- raises_only _ (lift (py_items ?t)) => destruct t
        | |- raises_only _ (match write_text ?a ?b ?c with _ => _ end) =>
            let E := fresh "E" in
            destruct (write_text a b c) eqn:E;
            [unfold raises_only, raise; cbn [result fst];
             apply exception_exit_one; exact (Hw _ _ _ E) |]
        end ].
  - intros e. destruct e; exists false; reflexivity.
Qed.

(** X8. The exit status of [parse_input.py], given that opening a file
    raises nothing but an [Exception]: it is 0 or 1, and it is 0 exactly
    when the run goes through, the write of the variable file having
    completed with the head and the tags text as content.  A run that
    stops before the write step exits with 1 and is the same whatever the
    variable file would have answered. *)
Theorem parse_script_exit (w : world) :
  files_raise_exceptions w ->
  (exit_code (ParseInput.script w) = 0%Z \/ exit_code (ParseInput.script w) = 1%Z)
  /\ (exit_code (ParseInput.script w) = 0%Z
      <-> exists content, parse_succeeds w input_file output_file content)
  /\ (forall content,
        parse_succeeds w input_file output_file content ->
        written (trace (ParseInput.script w)) = Some content)
  /\ (~ reaches_write w input_file ->
      exit_code (ParseInput.script w) = 1%Z
      /\ forall wt, ParseInput.script (with_output w wt) = ParseInput.script w).
Proof.
  intros Hfiles. pose proof (parse_input_raises w input_file output_file Hfiles) as Hraise.
  assert (Hreach : forall content,
             parse_succeeds w input_file output_file content ->
             reaches_write w input_file).
  { intros content (text & d & head & H1 & H2 & H3 & H4 & _). exists text, d. auto. }
  assert (Hsame : ~ reaches_write w input_file ->
                  forall wt, ParseInput.script (with_output w wt) = ParseInput.script w).
  { intros Hstop wt. unfold ParseInput.script.
    rewrite (parse_input_before_write w input_file output_file wt Hstop). reflexivity. }
  unfold exit_code. unfold ParseInput.script at 1 2 3 4 5 6.
  rewrite result_bind, trace_bind.
  destruct (parse_input_outcome w input_file output_file)
    as [(c & Hok & Hres & Hwr) | (Hno & Hres & Hwr)].
  - rewrite Hres. cbn [result fst]. split; [left; reflexivity |].
    split; [split; [eauto | reflexivity] |]. split.
    + intros content Hok'. rewrite written_app, Hwr.
      rewrite (parse_succeeds_unique _ _ _ _ _ Hok Hok'). reflexivity.
    + intros Hstop. exfalso. exact (Hstop (Hreach c Hok)).
  - unfold raises_only in Hraise.
    destruct (result (parse_input w input_file output_file)) as [[|] | e];
      [congruence | |].
    + cbn [result fst]. split; [right; reflexivity |].
      split; [split; [discriminate | intros [c Hc]; exfalso; exact (Hno c Hc)] |].
      split; [intros content Hc; exfalso; exact (Hno content Hc) |].
      intros Hstop. split; [reflexivity | exact (Hsame Hstop)].
    + destruct e; try discriminate Hraise.
      apply Z.eqb_eq in Hraise. subst. split; [right; reflexivity |].
      split; [split; [discriminate | intros [c Hc]; exfalso; exact (Hno c Hc)] |].
      split; [intros content Hc; exfalso; exact (Hno content Hc) |].
      intros Hstop. split; [reflexivity | exact (Hsame Hstop)].
Qed.

End RequestRuns.

(** ** validate.py: the order of a run *)

Section RunOrder.
Context {rt : Runtime}.

Lemma skeleton_app (t u : list event) :
  skeleton (t ++ u) = (skeleton t ++ skeleton u)%list.
Proof. apply filter_app. Qed.

Lemma skeleton_quiet (t : list event) : forallb is_out t = true -> skeleton t = [].
Proof.
  induction t as [| e t IH]; [reflexivity |].
  cbn [forallb]. intros H. apply andb_prop in H as [He Ht].
  destruct e; try discriminate He. exact (IH Ht).
Qed.

Lemma state_steps_run (w : world) :
  skeleton (trace (check_terraform_state w)) = state_steps.
Proof.
  unfold check_terraform_state, run_command. run.
  destruct (returncode (shell w show_cmd) =? 0)%Z; run; [| reflexivity].
  destruct (str_strip (stdout (shell w show_cmd))) as [| c text]; [reflexivity |].
  cbn [no_result truthy negb].
  destruct (json_loads (String c text)) as [state |]; run; [| reflexivity].
  destruct state as [| | | | s | l | d]; cbn [py_in]; run; try reflexivity.
  - destruct (substring_of "values" s); reflexivity.
  - destruct (existsb (is_str "values") l); reflexivity.
  - unfold has_key. cbn [getitem].
    destruct (lookup "values" d) as [values |]; run; [| reflexivity].
    destruct (py_in "root_module" values) as [[|] | e]; reflexivity.
Qed.

Lemma outputs_steps_run (w : world) :
  skeleton (trace (get_terraform_outputs w)) = outputs_steps.
Proof.
  unfold get_terraform_outputs, run_command. run.
  destruct (returncode (shell w output_cmd) =? 0)%Z; run; [| reflexivity].
  destruct (str_strip (stdout (shell w output_cmd))) as [| c text]; [reflexivity |].
  cbn [no_result truthy negb].
  destruct (json_loads (String c text)); reflexivity.
Qed.

Lemma entered_then_quiet {A : Type} (fn : string) (body : M A) :
  only is_out body ->
  skeleton (trace (bind (emit (Call fn)) (fun _ => body))) = [Call fn].
Proof.
  intros Hbody. rewrite trace_bind. cbn [result emit fst trace snd].
  rewrite skeleton_app, (skeleton_quiet _ Hbody). reflexivity.
Qed.

Lemma resources_steps_run (outputs : pyval) :
  skeleton (trace (validate_resources outputs)) = [Call "validate_resources"].
Proof.
  unfold validate_resources. apply entered_then_quiet.
  unfold output_value, print_items. compose.
Qed.

Lemma report_steps_run (outputs : pyval) :
  skeleton (trace (generate_report outputs)) = [Call "generate_report"].
Proof.
  unfold generate_report. apply entered_then_quiet.
  unfold output_value, print_field, print_command. compose.
Qed.

Lemma ping_one_steps (w : world) (iv : nat * pyval) :
  skeleton (trace (ping_one w iv))
  = if starts w iv then [Exec (ping_cmd (snd iv))] else [].
Proof.
  destruct iv as [i ip]. unfold starts, ping_one, subprocess_run. cbn [fst snd].
  destruct (has_nul (ping_cmd ip)); [reflexivity |]. cbn [negb andb].
  destruct (probe w i (ping_cmd ip)) as [rc |]; [| reflexivity]. run.
  destruct (rc =? 0)%Z; reflexivity.
Qed.

Lemma ping_loop_steps (w : world) (ivs : list (nat * pyval)) :
  skeleton (trace (for_each ivs (ping_one w))) = started_pings w ivs.
Proof.
  induction ivs as [| iv ivs IH]; [reflexivity |].
  cbn [for_each started_pings]. rewrite trace_bind.
  pose proof (ping_one_steps w iv) as Hone.
  destruct (starts w iv) eqn:Hs.
  - rewrite (ping_one_result w iv Hs), skeleton_app, Hone, IH. reflexivity.
  - rewrite (ping_one_aborts w iv Hs). exact Hone.
Qed.

Lemma started_pings_all (w : world) (ivs : list (nat * pyval)) :
  forallb (starts w) ivs = true ->
  started_pings w ivs = map (fun iv => Exec (ping_cmd (snd iv))) ivs.
Proof.
  induction ivs as [| iv ivs IH]; [reflexivity |].
  cbn [forallb started_pings map]. intros H. apply andb_prop in H as [Hs Hl].
  rewrite Hs, (IH Hl). reflexivity.
Qed.

Lemma started_pings_in (w : world) (ivs : list (nat * pyval)) (e : event) :
  In e (started_pings w ivs) -> exists iv, In iv ivs /\ e = Exec (ping_cmd (snd iv)).
Proof.
  induction ivs as [| iv ivs IH]; [intros [] |].
  cbn [started_pings]. destruct (starts w iv); [| intros []].
  intros [<- | Hin].
  - exists iv. split; [left; reflexivity | reflexivity].
  - destruct (IH Hin) as (iv' & Hiv & He). exists iv'. split; [right; exact Hiv | exact He].
Qed.

Lemma enumerate1_snd (l : list pyval) : map snd (enumerate1 l) = l.
Proof.
  unfold enumerate1. generalize 1%nat.
  induction l as [| x l IH]; intros k; [reflexivity |].
  cbn [List.length seq combine map snd]. rewrite IH. reflexivity.
Qed.

Lemma probe_steps_run (w : world) (outputs : pyval) :
  skeleton (trace (ping_vms w outputs)) = probe_steps w outputs
  /\ (forall b, result (ping_vms w outputs) = Ret b -> b = true).
Proof.
  unfold probe_steps, public_ips, ping_vms, output_value.
  destruct outputs as [| | | | s | l | d]; cbn [py_in getitem lift]; run;
    try (split; [reflexivity | discriminate]).
  - destruct (substring_of "vm_public_ips" s); run;
      (split; [reflexivity | intros b [= <-] || discriminate]); reflexivity.
  - destruct (existsb (is_str "vm_public_ips") l); run;
      (split; [reflexivity | intros b [= <-] || discriminate]); reflexivity.
  - unfold has_key.
    destruct (lookup "vm_public_ips" d) as [[| | | | | | e] |]; run;
      try (split; [reflexivity | intros b [= <-] || discriminate]; reflexivity).
    cbn [getitem].
    destruct (lookup "value" e) as [v |]; run;
      [| split; [reflexivity | discriminate]].
    destruct (py_iter v) as [ips | x]; run; [| split; [reflexivity | discriminate]].
    pose proof (ping_loop_steps w (enumerate1 ips)) as Hloop.
    rewrite (run_eta (for_each (enumerate1 ips) (ping_one w))).
    destruct (result (for_each (enumerate1 ips) (ping_one w))) as [[] | e0]; run;
      (split; [| intros b [= <-] || discriminate; reflexivity]);
      rewrite ?app_nil_r;
      change (skeleton (?a :: ?b :: ?t)) with (a :: skeleton t);
      rewrite Hloop; reflexivity.
Qed.

Lemma skeleton_out (line : string) (t : list event) :
  skeleton (Out line :: t) = skeleton t.
Proof. reflexivity. Qed.

Lemma skeleton_nil : skeleton [] = [].
Proof. reflexivity. Qed.

Ltac walk :=
  repeat (rewrite ?trace_bind, ?result_bind;
          cbn [result trace fst snd print emit ret raise negb];
          rewrite ?skeleton_out, ?skeleton_app, ?skeleton_nil, ?app_nil_r, ?app_nil_l).

Lemma main_steps (w : world) :
  skeleton (trace (main w))
  = match result (check_terraform_state w) with
    | Ret true =>
        (state_steps ++ outputs_steps
         ++ match result (get_terraform_outputs w) with
            | Ret outputs =>
                if truthy outputs then
                  Call "validate_resources"
                  :: match result (validate_resources outputs) with
                     | Ret true =>
                         probe_steps w outputs
                         ++ (if pings_start w outputs then [Call "generate_report"]
                             else [])
                     | _ => []
                     end
                else []
            | Raise _ => []
            end)%list
    | _ => state_steps
    end.
Proof.
  pose proof (state_steps_run w) as H1. pose proof (outputs_steps_run w) as H2.
  unfold main. walk.
  destruct (result (check_terraform_state w)) as [[|] | e]; walk; rewrite H1;
    try reflexivity.
  destruct (result (get_terraform_outputs w)) as [outputs | e]; walk; rewrite H2;
    try (rewrite ?app_nil_r; reflexivity).
  destruct (truthy outputs); walk; try reflexivity.
  destruct (result (validate_resources outputs)) as [[|] | e] eqn:R3; walk;
    rewrite (resources_steps_run outputs); try reflexivity.
  destruct (probe_steps_run w outputs) as [H4 _].
  pose proof (validate_resources_true outputs R3) as (d & -> & Hshape & _).
  assert (Hips : entry_ok "vm_public_ips" true d = true).
  { unfold outputs_shaped in Hshape.
    apply andb_prop in Hshape as [Hshape _]. apply andb_prop in Hshape as [_ Hips].
    exact Hips. }
  destruct (pings_start w (PDict d)) eqn:Hs.
  - rewrite (ping_vms_result w d Hips Hs). walk. rewrite H4.
    destruct (result (generate_report (PDict d))); walk;
      rewrite (report_steps_run (PDict d)); reflexivity.
  - destruct (ping_vms_aborts w d Hs) as [e He]. rewrite He. walk. rewrite H4.
    rewrite ?app_nil_r. reflexivity.
Qed.

(** X9. [ping_vms] enters once and starts the pings of the elements of
    the [value] of vm_public_ips in their order, up to the first one that
    cannot be started (a NUL character in the address, or a process the
    operating system does not start), where it raises; it starts no other
    command.  When every ping can be started there is exactly one per
    address; on outputs without usable addresses none is started.
    Whenever it returns, it returns [True]. *)
Theorem ping_vms_probes_each_address (w : world) (outputs : pyval) :
  skeleton (trace (ping_vms w outputs)) = probe_steps w outputs
  /\ (forall cmd,
        started cmd (trace (ping_vms w outputs)) ->
        exists ip, In ip (public_ips outputs) /\ cmd = ping_cmd ip)
  /\ (pings_start w outputs = true ->
      skeleton (trace (ping_vms w outputs))
      = Call "ping_vms" :: map (fun ip => Exec (ping_cmd ip)) (public_ips outputs))
  /\ (pings_start w outputs = false ->
      exists e, result (ping_vms w outputs) = Raise e)
  /\ (forall b, result (ping_vms w outputs) = Ret b -> b = true).
Proof.
  destruct (probe_steps_run w outputs) as [Hsteps Htrue].
  split; [exact Hsteps |]. split; [| split; [| split; [| exact Htrue]]].
  - intros cmd. unfold started. intros Hin.
    assert (Hsk : In (Exec cmd) (skeleton (trace (ping_vms w outputs)))).
    { unfold skeleton. rewrite filter_In. split; [exact Hin | reflexivity]. }
    rewrite Hsteps in Hsk. unfold probe_steps in Hsk.
    destruct Hsk as [Hx | Hsk]; [discriminate Hx |].
    apply started_pings_in in Hsk as (iv & Hiv & [= ->]).
    exists (snd iv). split; [| reflexivity].
    rewrite <- (enumerate1_snd (public_ips outputs)). apply in_map. exact Hiv.
  - intros Hstart. rewrite Hsteps. unfold probe_steps.
    rewrite (started_pings_all w _ Hstart).
    rewrite <- (enumerate1_snd (public_ips outputs)) at 2.
    rewrite map_map. reflexivity.
  - intros Hstart. destruct outputs as [| | | | s | l | d]; try discriminate Hstart.
    exact (ping_vms_aborts w d Hstart).
Qed.


Lemma main_result (w : world) :
  result (main w)
  = match result (check_terraform_state w) with
    | Ret true =>
        match result (get_terraform_outputs w) with
        | Ret outputs =>
            if truthy outputs then
              match result (validate_resources outputs) with
              | Ret true =>
                  match result (ping_vms w outputs) with
                  | Ret _ =>
                      match result (generate_report outputs) with
                      | Ret _ => Ret 0%Z
                      | Raise e => Raise e
                      end
                  | Raise e => Raise e
                  end
              | Ret false => Raise (SystemExit 1)
              | Raise e => Raise e
              end
            else Raise (SystemExit 1)
        | Raise e => Raise e
        end
    | Ret false => Raise (SystemExit 1)
    | Raise e => Raise e
    end.
Proof.
  unfold main. walk.
  destruct (result (check_terraform_state w)) as [[|] | e]; walk; try reflexivity.
  destruct (result (get_terraform_outputs w)) as [outputs | e]; walk; try reflexivity.
  destruct (truthy outputs); walk; try reflexivity.
  destruct (result (validate_resources outputs)) as [[|] | e]; walk; reflexivity.
Qed.

Lemma check_state_raises (w : world) :
  raises_only is_Exception (check_terraform_state w).
Proof. unfold check_terraform_state, run_command. cbv zeta. compose. Qed.

Lemma get_outputs_returns (w : world) :
  exists outputs, result (get_terraform_outputs w) = Ret outputs.
Proof.
  unfold get_terraform_outputs, run_command. run.
  destruct (returncode (shell w output_cmd) =? 0)%Z; run; [| eexists; reflexivity].
  destruct (str_strip (stdout (shell w output_cmd))) as [| c text];
    [eexists; reflexivity |].
  cbn [no_result truthy negb].
  destruct (json_loads (String c text)); eexists; reflexivity.
Qed.

Lemma get_outputs_truthy (w : world) (outputs : pyval) :
  result (get_terraform_outputs w) = Ret outputs ->
  truthy outputs = true ->
  outputs_fetched w outputs.
Proof.
  unfold outputs_fetched, answer, get_terraform_outputs, run_command. run.
  destruct (Z.eqb_spec (returncode (shell w output_cmd)) 0) as [Hrc | Hrc]; run;
    [| intros [= <-]; discriminate].
  destruct (str_strip (stdout (shell w output_cmd))) as [| c text];
    [intros [= <-]; discriminate |].
  cbn [no_result truthy negb].
  destruct (json_loads (String c text)) as [o |]; run;
    [| intros [= <-]; discriminate].
  intros [= ->] _. repeat split; [exact Hrc | discriminate].
Qed.

Lemma resources_raise (outputs : pyval) :
  raises_only is_Exception (validate_resources outputs).
Proof. unfold validate_resources, output_value, print_items. compose. Qed.

Lemma ping_vms_raises (w : world) (outputs : pyval) :
  raises_only is_Exception (ping_vms w outputs).
Proof. unfold ping_vms, output_value, ping_one, subprocess_run. compose. Qed.

Lemma report_raises (outputs : pyval) :
  raises_only is_Exception (generate_report outputs).
Proof. unfold generate_report, output_value, print_field, print_command. compose. Qed.

End RunOrder.

(** ** validate.py: the report, the verdicts and the exit status *)

Ltac evaluate_get :=
  repeat (run; cbn [getitem py_in py_get negb lookup]; unfold has_key;
          repeat match goal with
                 | H : lookup _ _ = _ |- _ => rewrite H
                 | H : py_iter _ = _ |- _ => rewrite H
                 | H : truthy _ = _ |- _ => rewrite H
                 end).

Section Verdicts.
Context {rt : Runtime}.

Lemma iter_sized (v : pyval) (l : list pyval) : py_iter v = Ret l -> sized v = true.
Proof. destruct v; simpl; intros H; try discriminate H; reflexivity. Qed.

Ltac refuted := try (intros Hx; discriminate Hx).

Ltac commands_step :=
  match goal with
  | |- context [lookup "connection_commands" ?d] =>
      destruct (lookup "connection_commands" d) as [[| | | | | | ?c] |] eqn:?;
      evaluate_get; refuted; try (intros _; reflexivity)
  end;
  try match goal with
      | |- context [lookup "value" ?c] =>
          destruct (lookup "value" c) as [?v |] eqn:?; evaluate_get; refuted
      end;
  try match goal with
      | |- context [py_iter ?v] =>
          let Hl := fresh "Hl" in
          destruct (py_iter v) as [?l | ?x] eqn:Hl; evaluate_get; refuted;
          intros _; rewrite (iter_sized _ _ Hl); reflexivity
      end.

Lemma generate_report_shaped (d : list (string * pyval)) :
  truthy (PDict d) = true ->
  (exists u, result (generate_report (PDict d)) = Ret u) ->
  report_shaped d = true.
Proof.
  intros Htruthy [u Hres]. revert Hres.
  unfold report_shaped, entry_ok, generate_report, print_field, output_value.
  cbn [lift]. unfold has_key.
  destruct (lookup "provisioning_summary" d) as [[| | | | | | e] |] eqn:Hsum;
    evaluate_get; refuted.
  - destruct (lookup "value" e) as [[| | | | | | s] |] eqn:Hval;
      evaluate_get; refuted; commands_step.
  - commands_step.
Qed.

Lemma in_trace_bind {A B : Type} (m : M A) (f : A -> M B) (a : A) (e : event) :
  result m = Ret a ->
  In e (trace (bind m f)) <-> In e (trace m) \/ In e (trace (f a)).
Proof. intros Hres. rewrite trace_bind, Hres. apply in_app_iff. Qed.

(** The seven lines of the summary and the closing line are in every
    report that gets past the no-outputs test. *)
Lemma report_lines (d : list (string * pyval)) :
  truthy (PDict d) = true ->
  report_shaped d = true ->
  (forall lk, In lk report_fields -> In (field_line d lk) (trace (generate_report (PDict d))))
  /\ In completed_line (trace (generate_report (PDict d))).
Proof.
  intros Htruthy Hshape. unfold report_shaped in Hshape.
  apply andb_prop in Hshape as [Hsum Hcmd].
  unfold field_line, summary_of, report_fields, completed_line.
  unfold generate_report, print_field, output_value. cbn [lift]. unfold has_key.
  apply entry_ok_cases in Hcmd.
  destruct (lookup "provisioning_summary" d) as [[| | | | | | e] |] eqn:Hs1;
    try discriminate Hsum;
    [destruct (lookup "value" e) as [[| | | | | | s] |] eqn:Hs2;
     try discriminate Hsum |];
    evaluate_get;
    (destruct Hcmd as [Hc | (c & v & Hc & Hv & Hs)];
     [| destruct (sized_cases v (Hs eq_refl)) as (n & l & _ & Hl)];
     evaluate_get;
     try (rewrite (run_eta (for_each (enumerate1 l) print_command));
          rewrite (for_each_result _ _ print_command_result); run);
     (split;
      [intros lk [<- | [<- | [<- | [<- | [<- | [<- | [<- | []]]]]]]];
       cbn [fst snd trace In]; auto 12
      | cbn [trace snd In]; rewrite ?in_app_iff; cbn [In]; auto 20])).
Qed.

(** X11. The report.  On an outputs mapping that is not empty,
    [generate_report] completes exactly when the summary and the connection
    commands have their shape (otherwise it raises); it then prints each of
    the seven summary lines with the value the summary has for the field,
    or N/A when the summary or the field is missing, and the completed
    line.  On empty outputs it prints the header and the no-outputs line
    and returns. *)
Theorem report_content (d : list (string * pyval)) :
  truthy (PDict d) = true ->
  ((exists u, result (generate_report (PDict d)) = Ret u) <-> report_shaped d = true)
  /\ (report_shaped d = true ->
      (forall lk, In lk report_fields ->
                  In (field_line d lk) (trace (generate_report (PDict d))))
      /\ In completed_line (trace (generate_report (PDict d))))
  /\ (forall outputs,
        truthy outputs = false ->
        generate_report outputs
        = (Ret tt,
           [Call "generate_report"; Out (nl ++ rule);
            Out "📋 PROVISIONING VALIDATION REPORT"; Out rule; no_outputs_line])).
Proof.
  intros Htruthy. split; [| split].
  - split.
    + exact (generate_report_shaped d Htruthy).
    + intros Hshape. exists tt. exact (generate_report_result d Hshape).
  - exact (report_lines d Htruthy).
  - intros outputs Hfalsy. unfold generate_report. run. rewrite Hfalsy. reflexivity.
Qed.

Lemma exception_exit_code (e : exn) :
  is_Exception e = true ->
  match e with
  | SystemExit c => c
  | _ => 1%Z
  end = 1%Z.
Proof. destruct e; try reflexivity. discriminate. Qed.

Lemma check_state_passes (w : world) (state : pyval) :
  returncode (shell w show_cmd) = 0%Z ->
  answer w show_cmd <> EmptyString ->
  json_loads (answer w show_cmd) = Some state ->
  required_structure state = true ->
  check_terraform_state w
  = (Ret true,
     [Call "check_terraform_state"; Out (nl ++ "🔍 Checking Terraform state...");
      Exec show_cmd; Out "✅ Terraform state is valid"]).
Proof.
  unfold answer, check_terraform_state, run_command. run.
  intros Hrc Hne Hparse Hreq. rewrite Hrc. cbn [Z.eqb]. run.
  destruct (str_strip (stdout (shell w show_cmd))) as [| c text]; [congruence |].
  cbn [no_result truthy negb]. rewrite Hparse.
  destruct state as [| | | | | | d]; try discriminate Hreq.
  cbn [required_structure] in Hreq. cbn [py_in getitem]. unfold has_key. run.
  destruct (lookup "values" d) as [values |]; [| discriminate Hreq]. run.
  unfold holds_root_module in Hreq.
  destruct (py_in "root_module" values) as [[|] | e]; try discriminate Hreq.
  reflexivity.
Qed.

(** X12. The state check returns [True] exactly when the state query
    exits with 0, its output is not empty and parses, and the parsed state
    has a [values] member that holds [root_module]. *)
Theorem state_check_passes_iff (w : world) :
  result (check_terraform_state w) = Ret true
  <-> returncode (shell w show_cmd) = 0%Z
      /\ answer w show_cmd <> EmptyString
      /\ exists state, json_loads (answer w show_cmd) = Some state
                       /\ required_structure state = true.
Proof.
  split.
  - intros Hres.
    assert (Hnot : ~ state_fetch_fails w).
    { intros Hfail. destruct (check_state_fails w Hfail) as [H | H]; congruence. }
    unfold state_fetch_fails in Hnot.
    destruct (Z.eq_dec (returncode (shell w show_cmd)) 0) as [Hrc | Hrc];
      [| exfalso; auto].
    split; [exact Hrc |].
    destruct (string_dec (answer w show_cmd) EmptyString) as [He | He];
      [exfalso; auto |].
    split; [exact He |].
    destruct (json_loads (answer w show_cmd)) as [state |] eqn:Hparse;
      [| exfalso; auto].
    exists state. split; [reflexivity |].
    destruct (required_structure state) eqn:Hreq; [reflexivity |].
    exfalso. apply Hnot. right. right. right. exists state. auto.
  - intros (Hrc & Hne & state & Hparse & Hreq).
    rewrite (check_state_passes w state Hrc Hne Hparse Hreq). reflexivity.
Qed.

(** X13. Missing resources stop the run.  After a state check that
    passed and outputs that were fetched, a [validate_resources] that
    returns [False] makes [main] print the missing-resources failure and
    exit with 1; [ping_vms] and [generate_report] are not entered and no
    ping is started. *)
Theorem missing_resources_halt (w : world) (outputs : pyval) :
  result (check_terraform_state w) = Ret true ->
  outputs_fetched w outputs ->
  truthy outputs = true ->
  result (validate_resources outputs) = Ret false ->
  result (main w) = Raise (SystemExit 1)
  /\ Validate.script w = 1%Z
  /\ In resources_failure_line (trace (main w))
  /\ skeleton (trace (main w))
     = (state_steps ++ outputs_steps ++ [Call "validate_resources"])%list.
Proof.
  intros Hstate Hfetch Htruthy Hres.
  assert (Hget : result (get_terraform_outputs w) = Ret outputs)
    by (rewrite (get_outputs_fetched w outputs Hfetch); reflexivity).
  assert (Hmain : result (main w) = Raise (SystemExit 1)).
  { rewrite main_result, Hstate, Hget, Htruthy, Hres. reflexivity. }
  split; [exact Hmain |]. split; [| split].
  - unfold Validate.script, exit_code. rewrite Hmain. reflexivity.
  - unfold main.
    apply (in_bind_right _ _ tt); [reflexivity |].
    apply (in_bind_right _ _ true); [exact Hstate |]. cbn [negb].
    apply (in_bind_right _ _ tt); [reflexivity |].
    apply (in_bind_right _ _ outputs); [exact Hget |]. rewrite Htruthy. cbn [negb].
    apply (in_bind_right _ _ tt); [reflexivity |].
    apply (in_bind_right _ _ false); [exact Hres |]. cbn [negb].
    apply in_bind_left. left. reflexivity.
  - rewrite main_steps, Hstate, Hget, Htruthy, Hres. reflexivity.
Qed.

(** X14. The exit status of [validate.py] is 0 or 1.  It is 0 exactly
    when the state check passed, the outputs fetched are a mapping with the
    four required keys, shaped as [validate_resources] and
    [generate_report] need, and every ping could be started; the return
    codes of the pings, so unreachable machines, do not matter. *)
Theorem validate_script_exit (w : world) :
  (Validate.script w = 0%Z \/ Validate.script w = 1%Z)
  /\ (Validate.script w = 0%Z
      <-> result (check_terraform_state w) = Ret true
          /\ exists d, outputs_fetched w (PDict d)
                       /\ all_present d = true
                       /\ outputs_shaped d = true
                       /\ pings_start w (PDict d) = true
                       /\ report_shaped d = true).
Proof.
  unfold Validate.script, exit_code. rewrite main_result.
  pose proof (check_state_raises w) as H1. unfold raises_only in H1.
  destruct (result (check_terraform_state w)) as [[|] | e1] eqn:R1.
  2: { split; [right; reflexivity |].
       split; [discriminate | intros [Hx _]; discriminate Hx]. }
  2: { rewrite (exception_exit_code e1 H1). split; [right; reflexivity |].
       split; [discriminate | intros [Hx _]; discriminate Hx]. }
  destruct (get_outputs_returns w) as [outputs R2]. rewrite R2.
  assert (Hsame : forall d, outputs_fetched w (PDict d) -> outputs = PDict d).
  { intros d Hfetch. rewrite (get_outputs_fetched w _ Hfetch) in R2.
    injection R2 as <-. reflexivity. }
  destruct (truthy outputs) eqn:T.
  2: { split; [right; reflexivity |].
       split; [discriminate |].
       intros (_ & d & Hfetch & Hall & _). exfalso.
       rewrite (Hsame d Hfetch), (present_truthy d Hall) in T. discriminate T. }
  pose proof (resources_raise outputs) as H3. unfold raises_only in H3.
  destruct (result (validate_resources outputs)) as [[|] | e3] eqn:R3.
  - pose proof (validate_resources_true outputs R3) as (d & -> & Hshape & Hall).
    assert (Hips : entry_ok "vm_public_ips" true d = true).
    { unfold outputs_shaped in Hshape.
      apply andb_prop in Hshape as [Hs _]. apply andb_prop in Hs as [_ Hips].
      exact Hips. }
    destruct (pings_start w (PDict d)) eqn:Hs.
    2: { pose proof (ping_vms_raises w (PDict d)) as H4. unfold raises_only in H4.
         destruct (ping_vms_aborts w d Hs) as [e4 R4]. rewrite R4 in H4 |- *.
         rewrite (exception_exit_code e4 H4). split; [right; reflexivity |].
         split; [discriminate |].
         intros (_ & d' & Hfetch & _ & _ & Hstart & _). exfalso.
         pose proof (Hsame d' Hfetch) as [= <-]. congruence. }
    rewrite (ping_vms_result w d Hips Hs).
    pose proof (report_raises (PDict d)) as H5. unfold raises_only in H5.
    destruct (result (generate_report (PDict d))) as [u | e5] eqn:R5.
    + split; [left; reflexivity |]. split; [| reflexivity].
      intros _. split; [reflexivity |]. exists d.
      split; [exact (get_outputs_truthy w (PDict d) R2 T) |].
      split; [exact Hall |]. split; [exact Hshape |]. split; [exact Hs |].
      apply (generate_report_shaped d T). exists u. exact R5.
    + rewrite (exception_exit_code e5 H5). split; [right; reflexivity |].
      split; [discriminate |].
      intros (_ & d' & Hfetch & _ & _ & _ & Hrep). exfalso.
      pose proof (Hsame d' Hfetch) as [= <-].
      rewrite (generate_report_result d Hrep) in R5. discriminate R5.
  - split; [right; reflexivity |]. split; [discriminate |].
    intros (_ & d & Hfetch & Hall & Hshape & _). exfalso.
    rewrite (Hsame d Hfetch) in R3.
    destruct (validate_resources_run d Hshape) as (t & Hrun & _).
    rewrite Hrun, Hall in R3. discriminate R3.
  - rewrite (exception_exit_code e3 H3). split; [right; reflexivity |].
    split; [discriminate |].
    intros (_ & d & Hfetch & Hall & Hshape & _). exfalso.
    rewrite (Hsame d Hfetch) in R3.
    destruct (validate_resources_run d Hshape) as (t & Hrun & _).
    rewrite Hrun in R3. discriminate R3.
Qed.

End Verdicts.

(** X15. [get_terraform_outputs] starts the outputs query once and
    nothing else.  It returns a document that is not empty exactly when
    the query exits with 0 and its output is not empty and parses to that
    document; when the query fails, prints nothing, or prints a text that
    [json.loads] rejects with [JSONDecodeError], it returns [None]. *)
Theorem get_terraform_outputs_verdict {rt : Runtime} (w : world) :
  skeleton (trace (get_terraform_outputs w)) = outputs_steps
  /\ (forall outputs,
        truthy outputs = true ->
        (result (get_terraform_outputs w) = Ret outputs <-> outputs_fetched w outputs))
  /\ (outputs_unavailable w -> result (get_terraform_outputs w) = Ret PNone).
Proof.
  split; [exact (outputs_steps_run w) |].
  split; [| exact (get_outputs_unavailable w)].
  intros outputs Htruthy. split.
  - intros Hres. exact (get_outputs_truthy w outputs Hres Htruthy).
  - intros Hfetch. rewrite (get_outputs_fetched w outputs Hfetch). reflexivity.
Qed.

(** ** The further properties on the sample documents *)

Lemma validate_input_verdict_witness :
  lookup "vm_count" bad_both_fields = Some (PInt 0)
  /\ lookup "environment" bad_both_fields = Some (PStr "test")
  /\ validate_input (rt := sample_runtime) (PDict bad_both_fields)
     = (Ret false, [vm_count_line]).
Proof.
  split; [reflexivity |]. split; [reflexivity |].
  apply (validate_input_verdict (rt := sample_runtime) bad_both_fields
           (PInt 0) (PStr "test")); [| reflexivity | reflexivity].
  intros g [<- | [<- | [<- | [<- | [<- | []]]]]]; reflexivity.
Defined.

Lemma unreadable_input_reported_witness :
  parse_input (rt := sample_runtime) broken_world input_file output_file
  = (Ret false, [not_found_line input_file])
  /\ result (parse_input (rt := sample_runtime)
               (file_world (Ret "{not json") None) input_file output_file)
     = Ret false.
Proof.
  split.
  - exact (proj1 (unreadable_input_reported (rt := sample_runtime) broken_world
                    input_file output_file) eq_refl).
  - rewrite (proj2 (unreadable_input_reported (rt := sample_runtime)
                      (file_world (Ret "{not json") None) input_file output_file)
               "{not json" eq_refl eq_refl).
    reflexivity.
Defined.

Lemma invalid_request_exits_witness :
  result (validate_input (rt := wide_runtime) (PDict bad_both_fields)) = Ret false
  /\ result (parse_input (rt := wide_runtime)
               (file_world (Ret (dumps (PDict bad_both_fields))) None)
               input_file output_file)
     = Raise (SystemExit 1)
  /\ written (trace (parse_input (rt := wide_runtime)
                       (file_world (Ret (dumps (PDict bad_both_fields))) None)
                       input_file output_file))
     = None.
Proof.
  split; [reflexivity |].
  destruct (invalid_request_exits (rt := wide_runtime)
              (file_world (Ret (dumps (PDict bad_both_fields))) None)
              input_file output_file (dumps (PDict bad_both_fields))
              (PDict bad_both_fields) eq_refl eq_refl eq_refl) as [Hrun Hwritten].
  split; [rewrite Hrun; reflexivity | exact Hwritten].
Defined.

Lemma unwritable_output_reported_witness :
  write_text (file_world (Ret (dumps example_request)) (Some FileNotFoundError))
    output_file EmptyString = Some FileNotFoundError
  /\ In (not_found_line input_file)
        (trace (parse_input (rt := sample_runtime)
                  (file_world (Ret (dumps example_request)) (Some FileNotFoundError))
                  input_file output_file)).
Proof.
  split; [reflexivity |].
  rewrite (unwritable_output_reported (rt := sample_runtime)
             (file_world (Ret (dumps example_request)) (Some FileNotFoundError))
             input_file output_file (dumps example_request) example_fields
             (match result (tfvars_head (rt := sample_runtime) input_file example_request) with
              | Ret h => h
              | Raise _ => EmptyString
              end)
             FileNotFoundError eq_refl eq_refl eq_refl eq_refl eq_refl eq_refl eq_refl).
  cbn [trace snd In]. auto.
Defined.

Lemma tags_edge_cases_witness :
  (exists head,
     tfvars_head (rt := wide_runtime) input_file (PDict empty_tags_fields) = (Ret head, [])
     /\ written (trace (parse_input (rt := wide_runtime)
                          (file_world (Ret (dumps (PDict empty_tags_fields))) None)
                          input_file output_file))
        = Some head)
  /\ result (parse_input (rt := wide_runtime)
               (file_world (Ret (dumps (PDict list_tags_fields))) None)
               input_file output_file)
     = Ret false.
Proof.
  split.
  - destruct (tags_edge_cases (rt := wide_runtime)
                (file_world (Ret (dumps (PDict empty_tags_fields))) None)
                input_file output_file (dumps (PDict empty_tags_fields))
                empty_tags_fields eq_refl eq_refl eq_refl (fun _ => eq_refl))
      as (head & Hhead & Hempty & _).
    exists head. split; [exact Hhead |].
    apply Hempty. right. exists (PDict []). split; reflexivity.
  - destruct (tags_edge_cases (rt := wide_runtime)
                (file_world (Ret (dumps (PDict list_tags_fields))) None)
                input_file output_file (dumps (PDict list_tags_fields))
                list_tags_fields eq_refl eq_refl eq_refl (fun _ => eq_refl))
      as (head & _ & _ & Hlist).
    rewrite (Hlist (PList [PStr "infra"]) eq_refl eq_refl eq_refl). reflexivity.
Defined.

Lemma files_of_sample_worlds (input : res string) (failure : option exn) :
  (forall e, input = Raise e -> is_Exception e = true) ->
  (forall e, failure = Some e -> is_Exception e = true) ->
  files_raise_exceptions (file_world input failure).
Proof.
  intros Hin Hout. split.
  - intros path e. exact (Hin e).
  - intros path content e. exact (Hout e).
Defined.

Lemma parse_script_exit_witness :
  exit_code (ParseInput.script (rt := sample_runtime)
               (file_world (Ret (dumps example_request)) None)) = 0%Z
  /\ exit_code (ParseInput.script (rt := sample_runtime)
                  (file_world (Raise FileNotFoundError) None)) = 1%Z
  /\ ParseInput.script (rt := sample_runtime)
       (with_output (file_world (Raise FileNotFoundError) None)
                    (fun _ _ => Some OSError))
     = ParseInput.script (rt := sample_runtime)
         (file_world (Raise FileNotFoundError) None).
Proof.
  assert (H1 : files_raise_exceptions (file_world (Ret (dumps example_request)) None)).
  { apply files_of_sample_worlds; intros e He; discriminate He. }
  assert (H2 : files_raise_exceptions (file_world (Raise FileNotFoundError) None)).
  { apply files_of_sample_worlds; intros e He; [injection He as <-; reflexivity |].
    discriminate He. }
  assert (Hstop : ~ reaches_write (rt := sample_runtime)
                      (file_world (Raise FileNotFoundError) None) input_file).
  { intros (text & d & Hread & _). discriminate Hread. }
  split.
  - apply (proj1 (proj2 (parse_script_exit (rt := sample_runtime) _ H1))).
    exists (match result (tfvars_head (rt := sample_runtime)
                            input_file example_request) with
            | Ret h => h
            | Raise _ => EmptyString
            end).
    exists (dumps example_request), example_fields,
      (match result (tfvars_head (rt := sample_runtime) input_file example_request) with
       | Ret h => h
       | Raise _ => EmptyString
       end).
    repeat split; reflexivity.
  - destruct (parse_script_exit (rt := sample_runtime) _ H2) as (_ & _ & _ & Hearly).
    destruct (Hearly Hstop) as [Hcode Hsame].
    split; [exact Hcode | exact (Hsame (fun _ _ => Some OSError))].
Defined.

Lemma report_content_witness :
  truthy good_outputs = true
  /\ report_shaped good_fields = true
  /\ In (Out ("📦 Project: " ++ "N/A"))
        (trace (generate_report (rt := sample_runtime) good_outputs))
  /\ In completed_line (trace (generate_report (rt := sample_runtime) good_outputs)).
Proof.
  split; [reflexivity |]. split; [reflexivity |].
  destruct (report_content (rt := sample_runtime) good_fields eq_refl)
    as (_ & Hlines & _).
  destruct (Hlines eq_refl) as [Hfields Hdone].
  split; [| exact Hdone].
  apply (Hfields ("📦 Project: ", "project_name")). simpl. auto.
Defined.

Lemma missing_resources_halt_witness :
  result (validate_resources (rt := sample_runtime) two_key_outputs) = Ret false
  /\ Validate.script (rt := sample_runtime) two_key_world = 1%Z
  /\ skeleton (trace (main (rt := sample_runtime) two_key_world))
     = (state_steps ++ outputs_steps ++ [Call "validate_resources"])%list.
Proof.
  split; [reflexivity |].
  assert (Hfetch : outputs_fetched (rt := sample_runtime) two_key_world two_key_outputs).
  { apply sample_outputs_fetched; [reflexivity | vm_compute; discriminate | reflexivity]. }
  destruct (missing_resources_halt (rt := sample_runtime) two_key_world two_key_outputs
              eq_refl Hfetch eq_refl eq_refl) as (_ & Hcode & _ & Hsteps).
  split; [exact Hcode | exact Hsteps].
Defined.

Lemma parse_input_writes_on_success_witness :
  result (parse_input (rt := sample_runtime)
            (file_world (Ret (dumps example_request)) None) input_file output_file)
  = Ret true
  /\ parse_input (rt := sample_runtime)
       (with_output (file_world (Raise FileNotFoundError) None) (fun _ _ => Some OSError))
       input_file output_file
     = parse_input (rt := sample_runtime)
         (file_world (Raise FileNotFoundError) None) input_file output_file
  /\ written (trace (parse_input (rt := sample_runtime)
                       (file_world (Raise FileNotFoundError) None)
                       input_file output_file)) = None.
Proof.
  assert (Hstop : ~ reaches_write (rt := sample_runtime)
                      (file_world (Raise FileNotFoundError) None) input_file).
  { intros (text & d & Hread & _). discriminate Hread. }
  split.
  - apply (proj1 (parse_input_writes_on_success (rt := sample_runtime)
                    (file_world (Ret (dumps example_request)) None)
                    input_file output_file)).
    exists (match result (tfvars_head (rt := sample_runtime)
                            input_file example_request) with
            | Ret h => h
            | Raise _ => EmptyString
            end).
    exists (dumps example_request), example_fields,
      (match result (tfvars_head (rt := sample_runtime) input_file example_request) with
       | Ret h => h
       | Raise _ => EmptyString
       end).
    repeat split; reflexivity.
  - destruct (parse_input_writes_on_success (rt := sample_runtime)
                (file_world (Raise FileNotFoundError) None) input_file output_file)
      as (_ & _ & Hearly).
    destruct (Hearly Hstop) as (Hsame & _ & Hnone).
    split; [exact (Hsame (fun _ _ => Some OSError)) | exact Hnone].
Defined.

Lemma ping_vms_probes_each_address_witness :
  pings_start (rt := sample_runtime) down_world good_outputs = true
  /\ skeleton (trace (ping_vms (rt := sample_runtime) down_world good_outputs))
     = [Call "ping_vms"; Exec "ping -c 1 -W 2 20.1.2.3"; Exec "ping -c 1 -W 2 20.1.2.4"]
  /\ pings_start (rt := sample_runtime) down_world (PDict nul_fields) = false
  /\ skeleton (trace (ping_vms (rt := sample_runtime) down_world (PDict nul_fields)))
     = [Call "ping_vms"; Exec "ping -c 1 -W 2 20.1.2.3"]
  /\ exists e, result (ping_vms (rt := sample_runtime) down_world (PDict nul_fields))
               = Raise e.
Proof.
  destruct (ping_vms_probes_each_address (rt := sample_runtime) down_world good_outputs)
    as (_ & _ & Hall & _).
  destruct (ping_vms_probes_each_address (rt := sample_runtime) down_world
              (PDict nul_fields)) as (Hsteps & _ & _ & Hstop & _).
  split; [reflexivity |]. split; [exact (Hall eq_refl) |].
  split; [reflexivity |]. split; [exact Hsteps | exact (Hstop eq_refl)].
Defined.

Lemma validate_script_exit_witness :
  Validate.script (rt := sample_runtime) down_world = 0%Z
  /\ Validate.script (rt := sample_runtime) text_summary_world = 1%Z.
Proof.
  assert (Hfetch : outputs_fetched (rt := sample_runtime) down_world good_outputs).
  { apply sample_outputs_fetched; [reflexivity | vm_compute; discriminate | reflexivity]. }
  split.
  - apply (proj2 (validate_script_exit (rt := sample_runtime) down_world)).
    split; [reflexivity |]. exists good_fields.
    split; [exact Hfetch |]. repeat split; reflexivity.
  - destruct (validate_script_exit (rt := sample_runtime) text_summary_world)
      as [[H0 | H1] Hiff]; [| exact H1].
    exfalso. apply Hiff in H0 as (_ & d & (_ & _ & Hparse) & _ & _ & _ & Hrep).
    vm_compute in Hparse. injection Hparse as <-. discriminate Hrep.
Defined.
